(** * sklearn-porter: the [Porter] harness and the [GaussianNB] estimator

    A shallow embedding of [sklearn_porter/Porter.py] and of
    [sklearn_porter/estimator/GaussianNB/__init__.py].

    [Porter.py] is Python 2 code: [class Porter:] is a classic class whose
    read-only properties are shadowed by [setattr] in [__init__], and the
    output of a child process is a [str].  Strings are therefore byte
    strings, and [lower], [capitalize], [strip] and [split] act on ASCII.

    The harness works on its surroundings: it asks the shell, starts [rm]
    and [mkdir], compilers and the ported program, and writes a file.  A
    computation is a function from a [world] (the files and the log of what
    was started) to a result, or an exception, and a world; what the
    processes answer, and what they do to the files, is given by a
    [machine]. *)

From Stdlib Require Import ZArith String Ascii List Bool.
From stdpp Require Import list strings gmap.

Open Scope string_scope.
Open Scope list_scope.

(** ** Python strings *)

Module PyStr.

Definition is_upper (c : ascii) : bool :=
  let n := nat_of_ascii c in (65 <=? n)%nat && (n <=? 90)%nat.

Definition is_lower (c : ascii) : bool :=
  let n := nat_of_ascii c in (97 <=? n)%nat && (n <=? 122)%nat.

Definition lower_char (c : ascii) : ascii :=
  if is_upper c then ascii_of_nat (nat_of_ascii c + 32) else c.

Definition upper_char (c : ascii) : ascii :=
  if is_lower c then ascii_of_nat (nat_of_ascii c - 32) else c.

(** [s.lower()] *)
Fixpoint lower (s : string) : string :=
  match s with
  | EmptyString => EmptyString
  | String c r => String (lower_char c) (lower r)
  end.

(** [s.capitalize()]: first character upper-cased, the others lower-cased. *)
Definition capitalize (s : string) : string :=
  match s with
  | EmptyString => EmptyString
  | String c r => String (upper_char c) (lower r)
  end.

(** [c.isspace()] *)
Definition is_space (c : ascii) : bool :=
  let n := nat_of_ascii c in
  (n =? 32)%nat || ((9 <=? n)%nat && (n <=? 13)%nat).

Fixpoint lstrip (s : string) : string :=
  match s with
  | EmptyString => EmptyString
  | String c r => if is_space c then lstrip r else s
  end.

(** Drops the white space at the end: a character is kept when it is not
    white space or when something is kept after it. *)
Fixpoint rstrip (s : string) : string :=
  match s with
  | EmptyString => EmptyString
  | String c r =>
      match rstrip r with
      | EmptyString => if is_space c then EmptyString else String c EmptyString
      | r' => String c r'
      end
  end.

(** [s.strip()] *)
Definition strip (s : string) : string := rstrip (lstrip s).

(** [s.split()]: the maximal runs of characters that are not white space.
    [cur] is the run being read, in reverse. *)
Fixpoint split_aux (s : string) (cur : list ascii) : list string :=
  let flush := match cur with
               | [] => []
               | _ => [string_of_list_ascii (rev cur)]
               end in
  match s with
  | EmptyString => flush
  | String c r =>
      if is_space c then flush ++ split_aux r [] else split_aux r (c :: cur)
  end.

Definition split (s : string) : list string := split_aux s [].

(** [s.format(a0, a1, ...)] for the templates of this package: an automatic
    field [{}] takes the next argument, the field [{0}] the first one of a
    template that numbers its fields.  A template without field is returned
    as it is, whatever the arguments.  (Python raises [IndexError] when the
    arguments run out; here the field is left in place, and no call in this
    file gets there.) *)
Fixpoint format (s : string) (args : list string) : string :=
  match s with
  | String "{" (String "}" r) =>
      match args with
      | a :: args' => a +:+ format r args'
      | [] => String "{" (String "}" (format r []))
      end
  | String "{" (String "0" (String "}" r)) =>
      match args with
      | a :: _ => a +:+ format r args
      | [] => String "{" (String "0" (String "}" (format r [])))
      end
  | String c r => String c (format r args)
  | EmptyString => EmptyString
  end.

(** [str(o)] for [o] a string or [None]. *)
Definition str_opt (o : option string) : string := default "None" o.

(** [s.startswith('/')] and [s.endswith('/')]. *)
Definition starts_with_sep (s : string) : bool :=
  match s with String "/" _ => true | _ => false end.

Fixpoint ends_with_sep (s : string) : bool :=
  match s with
  | EmptyString => false
  | String c EmptyString => Ascii.eqb c "/"
  | String _ r => ends_with_sep r
  end.

(** [os.path.join(a, b)] of [posixpath]. *)
Definition path_join (a b : string) : string :=
  if starts_with_sep b then b
  else if String.eqb a "" || ends_with_sep a then a +:+ b
  else a +:+ "/" +:+ b.

Definition is_digit (c : ascii) : bool :=
  let n := nat_of_ascii c in (48 <=? n)%nat && (n <=? 57)%nat.

Fixpoint digits (s : string) (acc : Z) : option Z :=
  match s with
  | EmptyString => Some acc
  | String c r =>
      if is_digit c
      then digits r (10 * acc + Z.of_nat (nat_of_ascii c - 48))%Z
      else None
  end.

Definition unsigned (s : string) : option Z :=
  match s with
  | EmptyString => None
  | _ => digits s 0%Z
  end.

(** [int(s)]: white space around, an optional sign, decimal digits.
    [None] is [ValueError]. *)
Definition int (s : string) : option Z :=
  match strip s with
  | String "-" r => Z.opp <$> unsigned r
  | String "+" r => unsigned r
  | r => unsigned r
  end.

End PyStr.

(** ** Python values and exceptions *)

Inductive exn : Type :=
| AttributeError (msg : string)
| SystemError (msg : string)
| TypeError (msg : string)
| KeyError (key : string)
| ValueError (literal : string)
| OverflowError (msg : string)
| IOError (path : string)
| OSError (argv : list string)
| CalledProcessError (status : Z) (argv : list string) (output : string).

Inductive result (A : Type) : Type :=
| Ok (a : A)
| Raise (e : exn).
Arguments Ok {A} a.
Arguments Raise {A} e.

(** A [str] object: the text, and the identity that [is] compares. *)
Record pyobj : Type := { oid : nat; text : string }.

(** [a is b] and [a == b] on [str] objects. *)
Definition py_is (a b : pyobj) : bool := Nat.eqb (oid a) (oid b).
Definition py_eq (a b : pyobj) : bool := String.eqb (text a) (text b).

(** ** The machine the harness runs on *)

Inductive node : Type :=
| Dir
| File (content : string).

Global Instance node_eq_dec : EqDecision node.
Proof. solve_decision. Defined.

(** What a child process started by [check_output] does: it exits with a
    status and an output, or its executable is not found. *)
Inductive proc : Type :=
| Exited (status : Z) (output : string)
| NoSuchFile.

(** An estimator class of the package ([classifier/SVC], ...) with the
    instance [clazz(self.__dict__)] made of it.  These classes are not
    part of the sources at hand: [SUPPORTED_METHODS] is the class attribute,
    [template_export] the method [export] of the instance. *)
Record template_class : Type := {
  SUPPORTED_METHODS : list string;
  (** [template.export(class_name=..., method_name=...)] *)
  template_export : string -> string -> result string
}.

(** What the source reads off its surroundings and cannot decide itself:
    the shell, the utilities [rm] and [mkdir], the compilers and the ported
    programs, the interpreter's choice of object identities, and the
    estimator classes of the package. *)
Record machine : Type := {
  (** the output of [/bin/sh -c cmd], standard error included; a probe asks
      for an executable on the search path, not for the files of the model *)
  sh : string -> string;
  (** the identity of the [str] a string method returns for a text *)
  new_str_id : string -> nat;
  (** whether the search path has a program of this name; like the answer
      to a probe, this is a fact of the machine, not of the files of the
      model *)
  has_program : string -> bool;
  (** a utility run by [subp.call(argv)] where the caller stands: the files
      it leaves.  How it reads its arguments, which spellings of a path it
      takes for one, and what it refuses to do is its own business; its
      exit status is not looked at *)
  run_util : list string -> gmap string node -> gmap string node;
  (** a compiler run by [subp.call(argv, cwd=cwd)]: the files after it, or
      nothing when the executable or [cwd] is missing ([OSError]) *)
  run_call : list string -> string -> gmap string node -> option (gmap string node);
  (** a ported program run by [subp.check_output(argv, cwd=cwd)]; it reads
      its arguments and prints, and leaves the files as they are *)
  run_check_output : list string -> string -> gmap string node -> proc;
  (** [os.path.dirname(__file__)] *)
  pwd : string;
  (** [__import__(package, ...)] followed by [getattr(clazz, name)] *)
  import_class : string -> string -> option template_class
}.

(** What a call does to its surroundings, in the order it does it: a command
    given to the shell, a process started from a list of arguments, a file
    opened for writing. *)
Inductive event : Type :=
| Shell (cmd : string)
| Spawn (argv : list string) (cwd : option string)
| WriteFile (path : string).

(** The files, keyed by path, and the events so far.  A file is found
    under the spelling of the path it was written under; what a utility or
    a compiler makes of a path is left to the machine. *)
Record world : Type := { fs : gmap string node; log : list event }.

Definition is_shell (e : event) : bool :=
  match e with Shell _ => true | _ => false end.

(** ** State and exceptions *)

Definition M (A : Type) : Type := world -> result A * world.

Definition ret {A} (a : A) : M A := fun w => (Ok a, w).

Definition raise {A} (e : exn) : M A := fun w => (Raise e, w).

Definition bind {A B} (m : M A) (k : A -> M B) : M B :=
  fun w =>
    match m w with
    | (Ok a, w') => k a w'
    | (Raise e, w') => (Raise e, w')
    end.

Definition lift {A} (r : result A) : M A := fun w => (r, w).

Notation "'do' x <- m ; k" := (bind m (fun x => k))
  (at level 10, x name, m at level 100, k at level 200).
Notation "'run' m ; k" := (bind m (fun _ => k))
  (at level 10, m at level 100, k at level 200).

(** A computation that only adds to the log of events. *)
Definition log_grows {A} (m : M A) : Prop :=
  forall w, exists l, log (m w).2 = log w ++ l.

(** ** Paths and files *)

(** The directory part of a path: what stands before its last separator. *)
Fixpoint parent (p : string) : string :=
  match p with
  | EmptyString => EmptyString
  | String c r =>
      if existsb (Ascii.eqb "/") (list_ascii_of_string r)
      then String c (parent r)
      else EmptyString
  end.

(** The directory an entry is made in exists: the working directory and the
    root always do. *)
Definition parent_ok (p : string) (files : gmap string node) : bool :=
  String.eqb (parent p) "" || bool_decide (files !! parent p = Some Dir).

(** [open(path, 'w')] followed by [write(content)]: [None] is [IOError]. *)
Definition write_file (path content : string) (files : gmap string node)
  : option (gmap string node) :=
  match files !! path with
  | Some Dir => None
  | _ => if parent_ok path files then Some (<[path := File content]> files) else None
  end.

(** [os.path.isdir(p)] *)
Definition isdir (p : string) : M bool :=
  fun w => (Ok (bool_decide (fs w !! p = Some Dir)), w).

(** [with open(path, 'w') as f: f.write(content)] *)
Definition open_write (path content : string) : M unit :=
  fun w =>
    match write_file path content (fs w) with
    | Some files => (Ok tt, {| fs := files; log := log w ++ [WriteFile path] |})
    | None => (Raise (IOError path), w)
    end.

(** ** [Porter.py] *)

Module Porter.

(** A trained model, as far as [__init__] looks at it. *)
Record sk_model : Type := {
  (** [type(model).__name__] *)
  type_name : string;
  (** [isinstance(model, self.classifiers)] *)
  is_classifier : bool;
  (** [str(model)] *)
  model_str : string
}.

Record porter : Type := {
  model : sk_model;
  algorithm_name : string;
  algorithm_type : string;
  target_language : string;
  target_method : string;
  template : template_class;
  tested_env_dependencies : bool
}.

(** The dictionary [export] returns when [details] is set. *)
Record export_dict : Type := {
  d_model : string;
  d_filename : string;
  d_class_name : string;
  d_method_name : string;
  d_compilation : option string;
  d_execution : option string;
  d_algorithm_type : string;
  d_algorithm_name : string
}.

Inductive exported : Type :=
| Source (text : string)
| Details (d : export_dict).

(** The input of [predict], of shape [(n_features)] or
    [(n_samples, n_features)]; an element is kept as its [str(f)]. *)
Inductive ndarray : Type :=
| Vector (x : list string)
| Matrix (rows : list (list string)).

(** What [predict] returns: an [int], or a numpy array of C longs. *)
Inductive prediction : Type :=
| Label (y : Z)
| Labels (ys : list Z).

(** *** Static methods without effect *)

Definition suffix : gmap string string :=
  {[ "c" := "c"; "java" := "java"; "js" := "js";
     "go" := "go"; "php" := "php"; "ruby" := "rb" ]}.

Definition get_filename (class_name language : string) : string :=
  let name := PyStr.lower class_name in
  let lang := language in
  let name := if String.eqb language "java" then PyStr.capitalize name else name in
  let suffix := default lang (suffix !! lang) in
  PyStr.format "{}.{}" [name; suffix].

Definition comp_vars (fname cname : string) : gmap string string :=
  {[ "c" := PyStr.format "gcc {} -lm -o {}" [fname; cname];
     "java" := PyStr.format "javac {}" [fname] ]}.

Definition exec_vars (fname cname : string) : gmap string string :=
  {[ "c" := PyStr.path_join "." cname;
     "java" := PyStr.format "java -classpath . {}" [PyStr.capitalize cname];
     "js" := PyStr.format "node {}" [fname];
     "php" := PyStr.format "php -f {}" [fname];
     "ruby" := PyStr.format "ruby {}" [fname] ]}.

Definition get_commands (filename class_name language : string)
  : option string * option string :=
  let cname := PyStr.lower class_name in
  let fname := filename in
  let lang := language in
  let comp_cmd := comp_vars fname cname !! lang in
  let exec_cmd := exec_vars fname cname !! lang in
  (comp_cmd, exec_cmd).

Definition depends : gmap string (list string) :=
  {[ "c" := ["gcc"];
     "java" := ["java"; "javac"];
     "js" := ["node"];
     "php" := ["php"];
     "ruby" := ["ruby"] ]}.

(** The constant ['1'] of [test_dependencies]. *)
Definition lit_1 : pyobj := {| oid := 0; text := "1" |}.

Definition probe_template : string :=
  "if hash {} 2/dev/null; then echo 1; else echo 0; fi".

(** The range of [dtype=int], a C long of 64 bits. *)
Definition fits_long (z : Z) : bool := ((- 2 ^ 63 <=? z) && (z <? 2 ^ 63))%Z.

Section OnMachine.

Variable mc : machine.

(** *** Processes *)

(** [subp.check_output(cmd, shell=True, stderr=subp.STDOUT)] *)
Definition check_output_shell (cmd : string) : M string :=
  fun w => (Ok (sh mc cmd), {| fs := fs w; log := log w ++ [Shell cmd] |}).

(** [s.strip()] as an object: the text is the stripped one, which object
    it is, is the interpreter's choice. *)
Definition strip_obj (s : string) : pyobj :=
  {| oid := new_str_id mc (PyStr.strip s); text := PyStr.strip s |}.

(** [subp.call(argv)] of a utility: [OSError] when the search path has no
    such program; else the utility runs, and its exit status is dropped. *)
Definition call_here (argv : list string) : M unit :=
  fun w =>
    if has_program mc (hd "" argv)
    then (Ok tt, {| fs := run_util mc argv (fs w); log := log w ++ [Spawn argv None] |})
    else (Raise (OSError argv), {| fs := fs w; log := log w ++ [Spawn argv None] |}).

(** [subp.call(['rm', '-rf', d])] and [subp.call(['mkdir', d])] *)
Definition call_rm_rf (d : string) : M unit := call_here ["rm"; "-rf"; d].

Definition call_mkdir (d : string) : M unit := call_here ["mkdir"; d].

(** [subp.call(argv, cwd=cwd)] of a compiler *)
Definition call (argv : list string) (cwd : string) : M unit :=
  fun w =>
    match run_call mc argv cwd (fs w) with
    | Some files =>
        (Ok tt, {| fs := files; log := log w ++ [Spawn argv (Some cwd)] |})
    | None =>
        (Raise (OSError argv), {| fs := fs w; log := log w ++ [Spawn argv (Some cwd)] |})
    end.

(** [subp.check_output(argv, stderr=subp.STDOUT, cwd=cwd)] *)
Definition check_output (argv : list string) (cwd : string) : M string :=
  fun w =>
    let w' := {| fs := fs w; log := log w ++ [Spawn argv (Some cwd)] |} in
    match run_check_output mc argv cwd (fs w) with
    | Exited 0 out => (Ok out, w')
    | Exited status out => (Raise (CalledProcessError status argv out), w')
    | NoSuchFile => (Raise (OSError argv), w')
    end.

(** [int(pred)] *)
Definition to_int (pred : string) : M Z :=
  match PyStr.int pred with
  | Some z => ret z
  | None => raise (ValueError pred)
  end.

(** [y[idx] = v] on an array of [dtype=int] *)
Definition store_long (v : Z) : M unit :=
  if fits_long v then ret tt
  else raise (OverflowError "Python int too large to convert to C long").

(** *** [test_dependencies] *)

(** The loop over [all_depends]; [cmd] is the variable the loop
    overwrites. *)
Fixpoint probe_all (all_depends : list string) (cmd : string) : M unit :=
  match all_depends with
  | [] => ret tt
  | exe :: rest =>
      let cmd := PyStr.format cmd [exe] in
      do available <- check_output_shell cmd;
      let available := py_is (strip_obj available) lit_1 in
      if negb available
      then raise (SystemError
             (PyStr.format "The required application '{0}' isn't available." [exe]))
      else probe_all rest cmd
  end.

Definition test_dependencies (language : string) : M unit :=
  let lang := language in
  match depends !! lang with
  | None =>
      raise (TypeError "unsupported operand type(s) for +: 'NoneType' and 'list'")
  | Some deps =>
      let all_depends := deps ++ ["mkdir"; "rm"] in
      probe_all all_depends probe_template
  end.

(** *** [__init__] *)

(** The property [algorithm_name]. *)
Definition algorithm_name_of (m : sk_model) : string := type_name m.

(** The property [algorithm_type]. *)
Definition algorithm_type_of (m : sk_model) : result string :=
  if is_classifier m then Ok "classifier"
  else Raise (ValueError
         ("The given model '" +:+ model_str m +:+ "' isn't supported.")).

(** [os.path.join(pwd, type, name, 'templates', language)] *)
Definition template_dir_of (type name language : string) : string :=
  PyStr.path_join (PyStr.path_join (PyStr.path_join
    (PyStr.path_join (pwd mc) type) name) "templates") language.

(** [Porter(model, language=language, method=method)].  In the loop over
    the shared properties, [hasattr] is false when the property raises
    (Python 2), and the key is then missing when the package name is
    formatted from [self.__dict__]. *)
Definition __init__ (m : sk_model) (language method : string) : M porter :=
  let name := algorithm_name_of m in
  match algorithm_type_of m with
  | Raise _ => raise (KeyError "algorithm_type")
  | Ok type =>
      let package := type +:+ "." +:+ name in
      match import_class mc package name with
      | None =>
          raise (AttributeError
            ("The given model '" +:+ name +:+ "' isn't supported."))
      | Some clazz =>
          let language := PyStr.lower (PyStr.strip language) in
          let template_dir := template_dir_of type name language in
          do has_template <- isdir template_dir;
          if negb has_template
          then raise (AttributeError
                 (PyStr.format
                    "The given target programming language '{}' isn't supported."
                    [language]))
          else
            let has_method := bool_decide (method ∈ SUPPORTED_METHODS clazz) in
            if negb has_method
            then raise (AttributeError
                   (PyStr.format "The given model method '{}' isn't supported."
                      [method]))
            else
              ret {| model := m;
                     algorithm_name := name;
                     algorithm_type := type;
                     target_language := language;
                     target_method := method;
                     template := clazz;
                     tested_env_dependencies := false |}
      end
  end.

(** *** [export] and [port] *)

Definition export (self : porter) (class_name method_name : string)
  (details : bool) : M exported :=
  do model <- lift (template_export (template self) class_name method_name);
  if negb details then ret (Source model)
  else
    let language := target_language self in
    let filename := get_filename class_name language in
    let '(comp_cmd, exec_cmd) := get_commands filename class_name language in
    ret (Details {| d_model := model;
                    d_filename := filename;
                    d_class_name := class_name;
                    d_method_name := method_name;
                    d_compilation := comp_cmd;
                    d_execution := exec_cmd;
                    d_algorithm_type := algorithm_type self;
                    d_algorithm_name := algorithm_name self |}).

Definition port (self : porter) (class_name method_name : string)
  (details : bool) : M exported :=
  export self class_name method_name details.

(** *** [predict] *)

(** The loop over the rows of a matrix: one process per row. *)
Fixpoint predict_rows (exec_cmd : list string) (tnp_dir : string)
  (rows : list (list string)) : M (list Z) :=
  match rows with
  | [] => ret []
  | x :: rest =>
      let full_exec_cmd := exec_cmd ++ map PyStr.strip x in
      do pred <- check_output full_exec_cmd tnp_dir;
      do v <- to_int pred;
      run store_long v;
      do ys <- predict_rows exec_cmd tnp_dir rest;
      ret (v :: ys)
  end.

Definition predict (self : porter) (X : ndarray)
  (class_name method_name tnp_dir : string) (keep_tmp_dir : bool)
  : M prediction :=
  (* Dependencies: *)
  run (if negb (tested_env_dependencies self)
       then test_dependencies (target_language self)
       else ret tt);
  (* Support: *)
  run (if negb (bool_decide ("predict" ∈ SUPPORTED_METHODS (template self)))
       then raise (AttributeError
              (PyStr.format "The given model method '{}' isn't supported."
                 ["predict"]))
       else ret tt);
  (* Cleanup: *)
  run call_rm_rf tnp_dir;
  run call_mkdir tnp_dir;
  (* Transpiled model: *)
  do out <- export self class_name method_name true;
  match out with
  | Source _ => raise (AttributeError "'str' object has no attribute 'get'")
  | Details d =>
      let filename := get_filename class_name (target_language self) in
      let target_file := PyStr.path_join tnp_dir filename in
      run open_write target_file (d_model d);
      (* Compilation command: *)
      run (match d_compilation d with
           | Some comp_cmd => call (PyStr.split comp_cmd) tnp_dir
           | None => ret tt
           end);
      (* Execution command: *)
      let exec_cmd := PyStr.split (PyStr.str_opt (d_execution d)) in
      do y <- match X with
              | Vector x =>
                  (* Single feature set: *)
                  let full_exec_cmd := exec_cmd ++ map PyStr.strip x in
                  do pred <- check_output full_exec_cmd tnp_dir;
                  do y <- to_int pred;
                  ret (Label y)
              | Matrix rows =>
                  (* Multiple feature sets: *)
                  do ys <- predict_rows exec_cmd tnp_dir rows;
                  ret (Labels ys)
              end;
      (* Cleanup: *)
      run (if negb keep_tmp_dir then call_rm_rf tnp_dir else ret tt);
      ret y
  end.

End OnMachine.

End Porter.

(** ** [estimator/GaussianNB/__init__.py] *)

Module GaussianNB.

Section Port.

(** The scikit-learn estimator, its [str], and the templates of a
    language with their keys as [print] shows them.  [load_templates] is
    inherited from [EstimatorBase], which is not part of the sources at
    hand: it is a field of the instance here, and is given what [port]
    gives it, the language. *)
Variable sk_estimator : Type.
Variable str_estimator : sk_estimator -> string.
Variable templates : Type.
Variable keys_str : templates -> string.
(** The values [with_num_format] formats. *)
Variable number : Type.

Record gaussian_nb : Type := {
  estimator : sk_estimator;
  (** [self.load_templates(language=to)] *)
  load_templates : string -> result templates
}.

(** [port]: the value returned and the lines printed. *)
Definition port (self : gaussian_nb) (method to : string)
  (with_num_format : number -> string)
  (with_class_name with_method_name : option string)
  : result string * list string :=
  match load_templates self to with
  | Raise e => (Raise e, [])
  | Ok temps => (Ok (str_estimator (estimator self)), [keys_str temps])
  end.

End Port.

Arguments estimator {sk_estimator templates} _.
Arguments load_templates {sk_estimator templates} _ _.
Arguments port {sk_estimator} str_estimator {templates} keys_str {number}
  self method to with_num_format with_class_name with_method_name.

End GaussianNB.

(** ** Machines and instances to run the definitions on *)

Module Fixture.

Import Porter.

Definition newline : string := String "010" "".

(** An estimator class that supports [predict], and one that does not. *)
Definition svc : template_class :=
  {| SUPPORTED_METHODS := ["predict"; "predict_proba"];
     template_export := fun class_name method_name =>
       Ok ("// " +:+ class_name +:+ "." +:+ method_name) |}.

Definition proba_only : template_class :=
  {| SUPPORTED_METHODS := ["predict_proba"];
     template_export := fun class_name method_name =>
       Ok ("// " +:+ class_name +:+ "." +:+ method_name) |}.

Definition import_fixture (package name : string) : option template_class :=
  if String.eqb package "classifier.SVC" then Some svc
  else if String.eqb package "classifier.ProbaOnly" then Some proba_only
  else None.

(** The ported program: it needs its source in the workspace and one
    feature at least, and answers 0 on a first feature [0.0], else 1. *)
Definition run_fixture (argv : list string) (cwd : string)
  (files : gmap string node) : proc :=
  match argv with
  | "node" :: file :: args =>
      match files !! PyStr.path_join cwd file with
      | Some (File _) =>
          match args with
          | [] => Exited 1 ("usage: predict <features>" +:+ newline)
          | a :: _ =>
              if String.eqb a "0.0" then Exited 0 ("0" +:+ newline)
              else Exited 0 ("1" +:+ newline)
          end
      | _ => Exited 1 ("Cannot find module" +:+ newline)
      end
  | _ => NoSuchFile
  end.

(** The utilities of these machines, which are no more than the examples
    need.  The files are keyed by paths spelled in one way, as [tmp] and
    [tmp/notes.txt] are, and a utility is given such a path: [rm -rf d]
    removes the entry at [d] and the entries at the paths that go on from
    [d] with a slash; [mkdir d] makes a directory at [d] where nothing is
    and the directory above exists. *)
Definition below (d p : string) : bool :=
  String.eqb p d || String.prefix (d +:+ "/") p.

Definition remove_tree (d : string) (files : gmap string node) : gmap string node :=
  filter (fun kv => below d kv.1 = false) files.

Definition make_dir (d : string) (files : gmap string node) : gmap string node :=
  match files !! d with
  | Some _ => files
  | None => if parent_ok d files then <[d := Dir]> files else files
  end.

Definition utilities (argv : list string) (files : gmap string node)
  : gmap string node :=
  match argv with
  | ["rm"; "-rf"; d] => remove_tree d files
  | ["mkdir"; d] => make_dir d files
  | _ => files
  end.

(** Every tool is installed, and the interpreter keeps one object per
    one-character string: the one of the constant ['1']. *)
Definition caching : machine :=
  {| sh := fun _ => "1" +:+ newline;
     new_str_id := fun s => if String.eqb s "1" then 0 else 1;
     has_program := fun _ => true;
     run_util := utilities;
     run_call := fun _ _ files => Some files;
     run_check_output := run_fixture;
     pwd := "/pkg";
     import_class := import_fixture |}.

(** The same machine with an interpreter whose [strip] never returns the
    object of a constant. *)
Definition allocating : machine :=
  {| sh := fun _ => "1" +:+ newline;
     new_str_id := fun _ => 1;
     has_program := fun _ => true;
     run_util := utilities;
     run_call := fun _ _ files => Some files;
     run_check_output := run_fixture;
     pwd := "/pkg";
     import_class := import_fixture |}.

(** [java] is installed; [javac], [mkdir] and [rm] are not. *)
Definition java_only : machine :=
  {| sh := fun cmd =>
       if String.eqb cmd "if hash java 2/dev/null; then echo 1; else echo 0; fi"
       then "1" +:+ newline else "0" +:+ newline;
     new_str_id := fun s => if String.eqb s "1" then 0 else 1;
     has_program := String.eqb "java";
     run_util := utilities;
     run_call := fun _ _ _ => None;
     run_check_output := run_fixture;
     pwd := "/pkg";
     import_class := import_fixture |}.

Definition files0 : gmap string node :=
  {[ "/pkg/classifier/SVC/templates/js" := Dir;
     "/pkg/classifier/ProbaOnly/templates/js" := Dir;
     "tmp" := Dir;
     "tmp/notes.txt" := File "kept since last week" ]}.

Definition w0 : world := {| fs := files0; log := [] |}.

Definition a_model (name : string) : sk_model :=
  {| type_name := name; is_classifier := true; model_str := name +:+ "()" |}.

(** [Porter(SVC(), language='js')] and [Porter(ProbaOnly(), language='js',
    method='predict_proba')], as [__init__] builds them. *)
Definition js_porter : porter :=
  {| model := a_model "SVC";
     algorithm_name := "SVC";
     algorithm_type := "classifier";
     target_language := "js";
     target_method := "predict";
     template := svc;
     tested_env_dependencies := false |}.

Definition proba_porter : porter :=
  {| model := a_model "ProbaOnly";
     algorithm_name := "ProbaOnly";
     algorithm_type := "classifier";
     target_language := "js";
     target_method := "predict_proba";
     template := proba_only;
     tested_env_dependencies := false |}.

(** [Porter(SVC(), language='java')], where the package has Java templates
    for the class. *)
Definition java_porter : porter :=
  {| model := a_model "SVC";
     algorithm_name := "SVC";
     algorithm_type := "classifier";
     target_language := "java";
     target_method := "predict";
     template := svc;
     tested_env_dependencies := false |}.

(** A [GaussianNB] whose templates exist for Java only; an estimator is
    given by its [str], the templates by their names. *)
Definition nb : GaussianNB.gaussian_nb string (list string) :=
  {| GaussianNB.estimator := "GaussianNB(priors=None)";
     GaussianNB.load_templates := fun to =>
       if String.eqb to "java" then Ok ["class"; "method"]
       else Raise (AttributeError "templates") |}.

Definition show_keys (temps : list string) : string :=
  "[" +:+ String.concat ", " temps +:+ "]".

End Fixture.

(** ** Notions the further properties are stated with *)

(** A string without white space: one word for [split]. *)
Definition no_space (s : string) : bool :=
  forallb (fun c => negb (PyStr.is_space c)) (list_ascii_of_string s).


(** The process [predict] starts for a feature vector. *)
Definition spawn_row (exec_cmd : list string) (tnp_dir : string)
  (x : list string) : event :=
  Spawn (exec_cmd ++ map PyStr.strip x) (Some tnp_dir).

(** An instance for Go, as [__init__] builds it where Go templates exist. *)
Definition go_porter : Porter.porter :=
  {| Porter.model := Fixture.a_model "SVC";
     Porter.algorithm_name := "SVC";
     Porter.algorithm_type := "classifier";
     Porter.target_language := "go";
     Porter.target_method := "predict";
     Porter.template := Fixture.svc;
     Porter.tested_env_dependencies := false |}.

(** The files of [Fixture.w0] with a source in the workspace. *)
Definition w_ready : world :=
  {| fs := <["tmp/brain.js" := File "// Brain.predict"]> Fixture.files0; log := [] |}.

(** A machine whose ported program prints 2 ^ 63, one more than the largest
    C long. *)
Definition big_label : machine :=
  {| sh := fun _ => "1" +:+ Fixture.newline;
     new_str_id := fun s => if String.eqb s "1" then 0 else 1;
     has_program := fun _ => true;
     run_util := Fixture.utilities;
     run_call := fun _ _ files => Some files;
     run_check_output := fun _ _ _ => Exited 0 ("9223372036854775808" +:+ Fixture.newline);
     pwd := "/pkg";
     import_class := Fixture.import_fixture |}.

(** The argument lists [predict] makes of the commands of [export]: the
    compilation command is split when there is one, the execution command is
    turned into a [str] and split. *)
Definition command_lines (class_name language : string)
  : option (list string) * list string :=
  let filename := Porter.get_filename class_name language in
  let cmds := Porter.get_commands filename class_name language in
  (PyStr.split <$> cmds.1, PyStr.split (PyStr.str_opt cmds.2)).

(** A computation all of whose new events pass a test. *)
Definition log_adds {A} (allowed : event -> bool) (m : M A) : Prop :=
  forall w, exists l, log (m w).2 = log w ++ l /\ forallb allowed l = true.

(** What a call of [predict] for the workspace [tnp_dir] and the source file
    [target] may do: probe, when the probes are not skipped; run [rm -rf]
    and [mkdir] on the workspace; start a process inside the workspace;
    write the source file. *)
Definition predict_event (probes : bool) (tnp_dir target : string) (e : event) : bool :=
  match e with
  | Shell _ => probes
  | Spawn argv None =>
      bool_decide (argv = ["rm"; "-rf"; tnp_dir]) || bool_decide (argv = ["mkdir"; tnp_dir])
  | Spawn _ (Some cwd) => String.eqb cwd tnp_dir
  | WriteFile path => String.eqb path target
  end.




(** * Properties *)

Import Porter.

Import Fixture.

(** ** Strings and dictionaries *)

Lemma append_nil_r (s : string) : s +:+ "" = s.
Proof.
  induction s as [|c s IH]; [reflexivity |].
  change (String c (s +:+ "") = String c s). now rewrite IH.
Qed.

Example lower_capitalize :
  PyStr.lower "BrainModel" = "brainmodel" /\
  PyStr.capitalize "brainModel" = "Brainmodel" /\
  PyStr.capitalize (PyStr.lower "SVC") = "Svc".
Proof. repeat split; reflexivity. Qed.

Example strip_split :
  PyStr.strip ("  1" +:+ newline) = "1" /\
  PyStr.split "gcc brain.c  -lm -o brain" = ["gcc"; "brain.c"; "-lm"; "-o"; "brain"] /\
  PyStr.split (PyStr.str_opt None) = ["None"].
Proof. repeat split; reflexivity. Qed.

Example format_fields :
  PyStr.format "gcc {} -lm -o {}" ["brain.c"; "brain"] = "gcc brain.c -lm -o brain" /\
  PyStr.format "'{0}' isn't available." ["gcc"] = "'gcc' isn't available." /\
  PyStr.format (PyStr.format probe_template ["java"]) ["javac"]
  = "if hash java 2/dev/null; then echo 1; else echo 0; fi".
Proof. repeat split; reflexivity. Qed.

Example int_literals :
  PyStr.int ("2" +:+ newline) = Some 2%Z /\
  PyStr.int " -17 " = Some (-17)%Z /\
  PyStr.int "+4" = Some 4%Z /\
  PyStr.int "" = None /\
  PyStr.int "1.0" = None /\
  PyStr.int "- 1" = None.
Proof. repeat split; reflexivity. Qed.

Example paths :
  PyStr.path_join "tmp" "brain.js" = "tmp/brain.js" /\
  PyStr.path_join "tmp/" "brain.js" = "tmp/brain.js" /\
  PyStr.path_join "tmp" "/etc/brain.js" = "/etc/brain.js" /\
  PyStr.path_join "." "brain" = "./brain" /\
  parent "tmp/brain.js" = "tmp" /\
  parent "brain.js" = "".
Proof. repeat split; reflexivity. Qed.

Example file_utilities :
  below "tmp" "tmp" = true /\
  below "tmp" "tmp/notes.txt" = true /\
  below "tmp" "tmpfiles/notes.txt" = false /\
  remove_tree "tmp" files0 !! "tmp/notes.txt" = None /\
  remove_tree "tmp" files0 !! "/pkg/classifier/SVC/templates/js" = Some Dir /\
  make_dir "tmp" files0 = files0 /\
  make_dir "a/b" files0 !! "a/b" = None /\
  make_dir "tmp/sub" files0 !! "tmp/sub" = Some Dir /\
  write_file "tmp" "x" files0 = None /\
  write_file "nowhere/brain.js" "x" files0 = None.
Proof. repeat split; vm_compute; reflexivity. Qed.

(** Lookup at a constant key in a dictionary the source writes out. *)
Ltac dict_lookup :=
  repeat first [ rewrite lookup_insert_eq
               | rewrite lookup_insert_ne by discriminate
               | rewrite lookup_empty ].

Lemma format_no_field (s : string) (args : list string) :
  existsb (Ascii.eqb "{") (list_ascii_of_string s) = false ->
  PyStr.format s args = s.
Proof.
  induction s as [| c s IH]; [reflexivity |].
  cbn [list_ascii_of_string existsb]. intros H.
  apply orb_false_iff in H as [Hc Hs].
  assert (c <> "{"%char) as Hne by (intros ->; discriminate).
  specialize (IH Hs). cbn [PyStr.format].
  destruct c as [[] [] [] [] [] [] [] []]; try congruence; now rewrite IH.
Qed.

(** ** [get_filename] *)

Lemma format_name_suffix (name sfx : string) :
  PyStr.format "{}.{}" [name; sfx] = name +:+ "." +:+ sfx.
Proof. cbn [PyStr.format]. now rewrite append_nil_r. Qed.

(** [get_filename] in one equation, for any language string. *)
Lemma get_filename_eq (class_name language : string) :
  get_filename class_name language =
  (if String.eqb language "java"
   then PyStr.capitalize (PyStr.lower class_name)
   else PyStr.lower class_name)
  +:+ "." +:+ default language (suffix !! language).
Proof. unfold get_filename. apply format_name_suffix. Qed.

(** C5: [get_filename] joins the lower-cased class name and the language's
    extension with a dot, and capitalises the base name for [java] only:
    class [Brain] gives [Brain.java], and [brain.c], [brain.js], [brain.go],
    [brain.php], [brain.rb] for the other supported languages. *)
Theorem get_filename_spec :
  (forall class_name,
     get_filename class_name "java"
     = PyStr.capitalize (PyStr.lower class_name) +:+ ".java") /\
  (forall class_name, get_filename class_name "c" = PyStr.lower class_name +:+ ".c") /\
  (forall class_name, get_filename class_name "js" = PyStr.lower class_name +:+ ".js") /\
  (forall class_name, get_filename class_name "go" = PyStr.lower class_name +:+ ".go") /\
  (forall class_name, get_filename class_name "php" = PyStr.lower class_name +:+ ".php") /\
  (forall class_name, get_filename class_name "ruby" = PyStr.lower class_name +:+ ".rb") /\
  get_filename "Brain" "java" = "Brain.java" /\
  map (get_filename "Brain") ["c"; "js"; "go"; "php"; "ruby"]
  = ["brain.c"; "brain.js"; "brain.go"; "brain.php"; "brain.rb"].
Proof.
  repeat split; try (vm_compute; reflexivity);
    intros class_name; rewrite get_filename_eq; unfold suffix; dict_lookup;
    reflexivity.
Qed.

(** ** [get_commands] *)

Lemma get_commands_go_none (filename class_name : string) :
  get_commands filename class_name "go" = (None, None).
Proof. unfold get_commands, comp_vars, exec_vars. dict_lookup. reflexivity. Qed.

(** C8, as stated, fails for [go]: no execution command is returned. *)
Lemma get_commands_go_no_execution :
  ~ is_Some (get_commands (get_filename "Brain" "go") "Brain" "go").2.
Proof. rewrite get_commands_go_none. cbn. apply is_Some_None. Qed.

(** C8, amended: for [c], [java], [js], [php] and [ruby] there is an
    execution command; for [c] and [java] there is a compilation command as
    well, which names the file (and, for [c], the lower-cased class name);
    for [go] there is neither. *)
Theorem get_commands_spec (filename class_name : string) :
  get_commands filename class_name "c"
  = (Some ("gcc " +:+ filename +:+ " -lm -o " +:+ PyStr.lower class_name),
     Some (PyStr.path_join "." (PyStr.lower class_name))) /\
  get_commands filename class_name "java"
  = (Some ("javac " +:+ filename),
     Some ("java -classpath . " +:+ PyStr.capitalize (PyStr.lower class_name))) /\
  get_commands filename class_name "js" = (None, Some ("node " +:+ filename)) /\
  get_commands filename class_name "php" = (None, Some ("php -f " +:+ filename)) /\
  get_commands filename class_name "ruby" = (None, Some ("ruby " +:+ filename)) /\
  get_commands filename class_name "go" = (None, None).
Proof.
  repeat split; unfold get_commands, comp_vars, exec_vars; dict_lookup;
    cbn [PyStr.format]; rewrite ?append_nil_r; reflexivity.
Qed.

(** ** State and exceptions *)

Lemma bind_ok {A B} (m : M A) (k : A -> M B) (w : world) (a : A) (w1 : world) :
  m w = (Ok a, w1) -> bind m k w = k a w1.
Proof. intros H. unfold bind. now rewrite H. Qed.

Lemma bind_raise {A B} (m : M A) (k : A -> M B) (w : world) (e : exn) (w1 : world) :
  m w = (Raise e, w1) -> bind m k w = (Raise e, w1).
Proof. intros H. unfold bind. now rewrite H. Qed.

Lemma bind_ret {A B} (a : A) (k : A -> M B) (w : world) : bind (ret a) k w = k a w.
Proof. reflexivity. Qed.

Lemma bind_ok_inv {A B} (m : M A) (k : A -> M B) (w : world) (b : B) (w' : world) :
  bind m k w = (Ok b, w') ->
  exists a w1, m w = (Ok a, w1) /\ k a w1 = (Ok b, w').
Proof.
  unfold bind. destruct (m w) as [[a | e] w1]; [eauto | discriminate].
Qed.

(** Splits a successful run at its first [bind]. *)
Tactic Notation "bind_inv" hyp(H) "as" ident(a) ident(w) ident(H1) :=
  apply bind_ok_inv in H; destruct H as (a & w & H1 & H).

Lemma bind_log {A B} (m : M A) (k : A -> M B) (w : world) :
  (forall a, log_grows (k a)) ->
  exists l, log (bind m k w).2 = log (m w).2 ++ l.
Proof.
  intros Hk. unfold bind. destruct (m w) as [[a | e] w1]; cbn.
  - apply Hk.
  - exists []. now rewrite app_nil_r.
Qed.

(** ** The log only grows *)

Lemma log_grows_ret {A} (a : A) : log_grows (ret a).
Proof. intros w. exists []. cbn. now rewrite app_nil_r. Qed.

Lemma log_grows_raise {A} (e : exn) : log_grows (@raise A e).
Proof. intros w. exists []. cbn. now rewrite app_nil_r. Qed.

Lemma log_grows_lift {A} (r : result A) : log_grows (lift r).
Proof. intros w. exists []. cbn. now rewrite app_nil_r. Qed.

Lemma log_grows_bind {A B} (m : M A) (k : A -> M B) :
  log_grows m -> (forall a, log_grows (k a)) -> log_grows (bind m k).
Proof.
  intros Hm Hk w. unfold bind. destruct (Hm w) as [l Hl].
  destruct (m w) as [[a | e] w1]; cbn in Hl.
  - destruct (Hk a w1) as [l' Hl']. exists (l ++ l').
    now rewrite Hl', Hl, <- app_assoc.
  - now exists l.
Qed.

Lemma log_grows_call_here (mc : machine) (argv : list string) :
  log_grows (call_here mc argv).
Proof. intros w. unfold call_here. destruct (has_program _ _); now eexists. Qed.

Lemma log_grows_call_rm_rf (mc : machine) (d : string) : log_grows (call_rm_rf mc d).
Proof. apply log_grows_call_here. Qed.

Lemma log_grows_call_mkdir (mc : machine) (d : string) : log_grows (call_mkdir mc d).
Proof. apply log_grows_call_here. Qed.

Lemma log_grows_open_write (path content : string) : log_grows (open_write path content).
Proof.
  intros w. unfold open_write. destruct (write_file _ _ _).
  - now eexists.
  - exists []. cbn. now rewrite app_nil_r.
Qed.

Lemma log_grows_call (mc : machine) (argv : list string) (cwd : string) :
  log_grows (call mc argv cwd).
Proof. intros w. unfold call. destruct (run_call _ _ _ _); now eexists. Qed.

Lemma log_grows_check_output (mc : machine) (argv : list string) (cwd : string) :
  log_grows (check_output mc argv cwd).
Proof.
  intros w. unfold check_output.
  destruct (run_check_output _ _ _ _) as [[| ? | ?] ? |]; now eexists.
Qed.

Lemma log_grows_to_int (pred : string) : log_grows (to_int pred).
Proof.
  unfold to_int. destruct (PyStr.int pred);
    [apply log_grows_ret | apply log_grows_raise].
Qed.

Lemma log_grows_store_long (v : Z) : log_grows (store_long v).
Proof.
  unfold store_long. destruct (fits_long v);
    [apply log_grows_ret | apply log_grows_raise].
Qed.

Create HintDb grows.

#[local] Hint Resolve log_grows_ret log_grows_raise log_grows_lift
  log_grows_call_rm_rf log_grows_call_mkdir log_grows_open_write log_grows_call
  log_grows_check_output log_grows_to_int log_grows_store_long : grows.

(** Walks down a computation written with [bind]. *)
Ltac grows :=
  repeat first
    [ progress cbv beta zeta
    | apply log_grows_bind; [| intro]
    | match goal with
      | |- log_grows (match ?x with _ => _ end) => destruct x
      | |- log_grows (if ?b then _ else _) => destruct b
      end
    | solve [auto with grows] ].

(** ** The utilities *)

(** A utility that can be started runs; one that cannot raises, and the
    files stay. *)
Lemma call_here_ok (mc : machine) (argv : list string) (w : world) :
  has_program mc (hd "" argv) = true ->
  call_here mc argv w
  = (Ok tt, {| fs := run_util mc argv (fs w); log := log w ++ [Spawn argv None] |}).
Proof. intros H. unfold call_here. now rewrite H. Qed.

Lemma call_here_raise (mc : machine) (argv : list string) (w : world) :
  has_program mc (hd "" argv) = false ->
  call_here mc argv w
  = (Raise (OSError argv), {| fs := fs w; log := log w ++ [Spawn argv None] |}).
Proof. intros H. unfold call_here. now rewrite H. Qed.

Lemma call_here_ok_inv (mc : machine) (argv : list string) (w w' : world) (u : unit) :
  call_here mc argv w = (Ok u, w') ->
  has_program mc (hd "" argv) = true /\
  w' = {| fs := run_util mc argv (fs w); log := log w ++ [Spawn argv None] |}.
Proof.
  unfold call_here. destruct (has_program mc (hd "" argv)); [| discriminate].
  intros [= _ <-]. now split.
Qed.

Lemma call_here_log (mc : machine) (argv : list string) (w : world) :
  log (call_here mc argv w).2 = log w ++ [Spawn argv None].
Proof. unfold call_here. now destruct (has_program mc _). Qed.

Lemma call_rm_rf_ok (mc : machine) (d : string) (w : world) :
  has_program mc "rm" = true ->
  call_rm_rf mc d w
  = (Ok tt, {| fs := run_util mc ["rm"; "-rf"; d] (fs w);
               log := log w ++ [Spawn ["rm"; "-rf"; d] None] |}).
Proof. apply (call_here_ok mc ["rm"; "-rf"; d]). Qed.

Lemma call_rm_rf_raise (mc : machine) (d : string) (w : world) :
  has_program mc "rm" = false ->
  call_rm_rf mc d w
  = (Raise (OSError ["rm"; "-rf"; d]),
     {| fs := fs w; log := log w ++ [Spawn ["rm"; "-rf"; d] None] |}).
Proof. apply (call_here_raise mc ["rm"; "-rf"; d]). Qed.

Lemma call_rm_rf_ok_inv (mc : machine) (d : string) (w w' : world) (u : unit) :
  call_rm_rf mc d w = (Ok u, w') ->
  has_program mc "rm" = true /\
  w' = {| fs := run_util mc ["rm"; "-rf"; d] (fs w);
          log := log w ++ [Spawn ["rm"; "-rf"; d] None] |}.
Proof. apply (call_here_ok_inv mc ["rm"; "-rf"; d]). Qed.

Lemma call_mkdir_ok (mc : machine) (d : string) (w : world) :
  has_program mc "mkdir" = true ->
  call_mkdir mc d w
  = (Ok tt, {| fs := run_util mc ["mkdir"; d] (fs w);
               log := log w ++ [Spawn ["mkdir"; d] None] |}).
Proof. apply (call_here_ok mc ["mkdir"; d]). Qed.


(** The last statement of [predict]: when it returns in one world, it
    returns in every world. *)
Lemma cleanup_ok (mc : machine) (d : string) (keep : bool) (w w' : world) (u : unit) :
  (if negb keep then call_rm_rf mc d else ret tt) w = (Ok u, w') ->
  forall w2, exists w2',
    (if negb keep then call_rm_rf mc d else ret tt) w2 = (Ok tt, w2').
Proof.
  destruct keep; cbn [negb]; intros H w2.
  - now exists w2.
  - apply call_rm_rf_ok_inv in H as [H _]. eexists. now apply call_rm_rf_ok.
Qed.

(** What [rm -rf] removes on the machines of the examples. *)
Lemma remove_tree_below (d p : string) (files : gmap string node) :
  below d p = true -> remove_tree d files !! p = None.
Proof.
  intros Hin. unfold remove_tree. apply map_lookup_filter_None_2.
  right. intros x _. cbn. congruence.
Qed.

(** ** [test_dependencies] *)

(** One turn of the loop: the command run is [cmd] with its field filled, the
    test is the identity of the stripped output with the constant. *)
Lemma probe_all_cons (mc : machine) (exe : string) (rest : list string)
  (cmd : string) (w : world) :
  probe_all mc (exe :: rest) cmd w =
  let cmd' := PyStr.format cmd [exe] in
  let w' := {| fs := fs w; log := log w ++ [Shell cmd'] |} in
  if py_is (strip_obj mc (sh mc cmd')) lit_1
  then probe_all mc rest cmd' w'
  else (Raise (SystemError
          (PyStr.format "The required application '{0}' isn't available." [exe])), w').
Proof.
  cbn [probe_all]. unfold bind, check_output_shell. cbv zeta.
  destruct (py_is (strip_obj mc _) lit_1); reflexivity.
Qed.

(** The probes touch no file, and what they do does not depend on the
    files: a result and the commands run, the same in every world. *)
Lemma probe_all_shell (mc : machine) (exes : list string) (cmd : string) :
  exists (r : result unit) (cmds : list string),
    forall w, probe_all mc exes cmd w
              = (r, {| fs := fs w; log := log w ++ map Shell cmds |}).
Proof.
  revert cmd. induction exes as [| exe rest IH]; intros cmd.
  - exists (Ok tt), []. intros [f l]. cbn. unfold ret. now rewrite app_nil_r.
  - destruct (IH (PyStr.format cmd [exe])) as (r & cmds & Hrest).
    destruct (py_is (strip_obj mc (sh mc (PyStr.format cmd [exe]))) lit_1) eqn:E.
    + exists r, (PyStr.format cmd [exe] :: cmds). intros w.
      rewrite probe_all_cons. cbv zeta. rewrite E, Hrest. cbn.
      now rewrite <- app_assoc.
    + eexists _, [PyStr.format cmd [exe]]. intros w.
      rewrite probe_all_cons. cbv zeta. rewrite E. reflexivity.
Qed.

Lemma test_dependencies_shell (mc : machine) (language : string) :
  exists (r : result unit) (cmds : list string),
    forall w, test_dependencies mc language w
              = (r, {| fs := fs w; log := log w ++ map Shell cmds |}).
Proof.
  unfold test_dependencies. destruct (depends !! language) as [deps |].
  - apply probe_all_shell.
  - eexists _, []. intros [f l]. unfold raise. cbn. now rewrite app_nil_r.
Qed.

Lemma log_grows_probe_all (mc : machine) (exes : list string) (cmd : string) :
  log_grows (probe_all mc exes cmd).
Proof.
  intros w. destruct (probe_all_shell mc exes cmd) as (r & cmds & H).
  rewrite H. now eexists.
Qed.

Lemma log_grows_test_dependencies (mc : machine) (language : string) :
  log_grows (test_dependencies mc language).
Proof.
  intros w. destruct (test_dependencies_shell mc language) as (r & cmds & H).
  rewrite H. now eexists.
Qed.

(** Where the interpreter keeps one object for the text of the constant and
    hands it out for that text only, the identity test is the comparison of
    values. *)
Lemma identity_is_equality_when_shared (mc : machine) (s : string) :
  (forall t, new_str_id mc t = oid lit_1 <-> t = text lit_1) ->
  py_is (strip_obj mc s) lit_1 = py_eq (strip_obj mc s) lit_1.
Proof.
  intros Hshared. unfold py_is, py_eq, strip_obj. cbn [oid text].
  destruct (String.eqb_spec (PyStr.strip s) (text lit_1)) as [E | E].
  - apply Nat.eqb_eq. now apply Hshared.
  - apply Nat.eqb_neq. intros H. now apply Hshared in H.
Qed.

(** On an interpreter that never hands out the object of the constant, the
    first probe fails whatever the shell prints. *)
Lemma test_dependencies_never_identical (mc : machine) (language : string)
  (exe : string) (deps : list string) (w : world) :
  (forall s, new_str_id mc s <> oid lit_1) ->
  depends !! language = Some (exe :: deps) ->
  (test_dependencies mc language w).1
  = Raise (SystemError
      (PyStr.format "The required application '{0}' isn't available." [exe])).
Proof.
  intros Hid Hdep. unfold test_dependencies. rewrite Hdep.
  cbn [app]. rewrite probe_all_cons. cbv zeta.
  unfold py_is, strip_obj. cbn [oid].
  destruct (Nat.eqb_spec (new_str_id mc (PyStr.strip (sh mc (PyStr.format probe_template [exe]))))
              (oid lit_1)) as [E | _]; [now apply Hid in E | reflexivity].
Qed.

(** C2, the code at a failing input: the shell prints 1 for every probe, the
    stripped output equals ['1'] as a value, and [test_dependencies] raises,
    for the stripped output is not the object of the constant. *)
Theorem test_dependencies_compares_identity :
  let out := strip_obj allocating
               (sh allocating "if hash node 2/dev/null; then echo 1; else echo 0; fi") in
  py_eq out lit_1 = true /\
  py_is out lit_1 = false /\
  (test_dependencies allocating "js" w0).1
  = Raise (SystemError "The required application 'node' isn't available.").
Proof. vm_compute. repeat split; reflexivity. Qed.

(** Once its field is filled, the probe command holds no field: filling it
    again changes nothing. *)
Lemma probe_all_same_command (mc : machine) (exes : list string) (cmd : string) :
  (forall exe, PyStr.format cmd [exe] = cmd) ->
  forall w, exists n,
    log (probe_all mc exes cmd w).2 = log w ++ replicate n (Shell cmd).
Proof.
  intros Hcmd. induction exes as [| exe rest IH]; intros w.
  - exists 0. cbn. now rewrite app_nil_r.
  - rewrite probe_all_cons. cbv zeta. rewrite Hcmd.
    destruct (py_is _ _).
    + destruct (IH {| fs := fs w; log := log w ++ [Shell cmd] |}) as [n Hn].
      exists (S n). rewrite Hn. cbn. now rewrite <- app_assoc.
    + now exists 1.
Qed.

(** For each language of [depends], all the probes of a call run one
    command: the one that names the first executable of the list. *)
Lemma test_dependencies_one_command (mc : machine) (language exe : string)
  (deps : list string) (w : world) :
  depends !! language = Some (exe :: deps) ->
  exists n,
    log (test_dependencies mc language w).2
    = log w ++ replicate (S n) (Shell (PyStr.format probe_template [exe])).
Proof.
  intros Hdep. unfold test_dependencies. rewrite Hdep.
  cbn [app]. rewrite probe_all_cons. cbv zeta.
  assert (Hfix : forall exe', PyStr.format (PyStr.format probe_template [exe]) [exe']
                              = PyStr.format probe_template [exe]).
  { intros exe'. apply format_no_field.
    unfold depends in Hdep.
    repeat (rewrite lookup_insert in Hdep; case_decide;
            [simplify_eq; vm_compute; reflexivity |]).
    rewrite lookup_singleton in Hdep. case_decide; [| discriminate].
    simplify_eq. vm_compute. reflexivity. }
  destruct (py_is _ _).
  - destruct (probe_all_same_command mc (deps ++ ["mkdir"; "rm"]) _ Hfix
                {| fs := fs w;
                   log := log w ++ [Shell (PyStr.format probe_template [exe])] |})
      as [n Hn].
    exists n. rewrite Hn. cbn. now rewrite <- app_assoc.
  - now exists 0.
Qed.

(** C4, the code at a failing input: of [java], [javac], [mkdir] and [rm]
    only [java] is installed; the four probes all name [java], and
    [test_dependencies] returns. *)
Theorem test_dependencies_probes_first_only :
  let r := test_dependencies java_only "java" w0 in
  r.1 = Ok tt /\
  log r.2 = replicate 4 (Shell "if hash java 2/dev/null; then echo 1; else echo 0; fi") /\
  map (fun exe => PyStr.strip (sh java_only (PyStr.format probe_template [exe])))
      ["java"; "javac"; "mkdir"; "rm"]
  = ["1"; "0"; "0"; "0"].
Proof. vm_compute. repeat split; reflexivity. Qed.

(** For [go] the dictionary has no entry, and the sum with the list of file
    utilities raises before any probe. *)
Lemma test_dependencies_go (mc : machine) (w : world) :
  test_dependencies mc "go" w
  = (Raise (TypeError "unsupported operand type(s) for +: 'NoneType' and 'list'"), w).
Proof. unfold test_dependencies, depends. dict_lookup. reflexivity. Qed.

(** ** [__init__] *)

Example init_errors :
  (__init__ caching (a_model "SVC") " JS " "predict" w0).1 = Ok js_porter /\
  (__init__ caching {| type_name := "KMeans"; is_classifier := false;
                       model_str := "KMeans()" |} "js" "predict" w0).1
  = Raise (KeyError "algorithm_type") /\
  (__init__ caching (a_model "Lasso") "js" "predict" w0).1
  = Raise (AttributeError "The given model 'Lasso' isn't supported.") /\
  (__init__ caching (a_model "SVC") "swift" "predict" w0).1
  = Raise (AttributeError
      "The given target programming language 'swift' isn't supported.") /\
  (__init__ caching (a_model "SVC") "js" "decision_function" w0).1
  = Raise (AttributeError "The given model method 'decision_function' isn't supported.").
Proof. vm_compute. repeat split; reflexivity. Qed.

(** [__init__] reads the files and changes nothing. *)
Lemma init_world (mc : machine) (m : sk_model) (language method : string) (w : world) :
  (__init__ mc m language method w).2 = w.
Proof.
  unfold __init__. destruct (algorithm_type_of m); [| reflexivity].
  destruct (import_class mc _ _); [| reflexivity].
  unfold bind, isdir, raise, ret.
  destruct (negb (bool_decide _)); [reflexivity |].
  destruct (negb (bool_decide _)); reflexivity.
Qed.

(** [__init__] leaves the flag unset, and nothing sets it afterwards:
    [predict] returns no new instance. *)
Lemma init_flag_unset (mc : machine) (m : sk_model) (language method : string)
  (w w' : world) (self : porter) :
  __init__ mc m language method w = (Ok self, w') ->
  tested_env_dependencies self = false.
Proof.
  unfold __init__. destruct (algorithm_type_of m); [| discriminate].
  destruct (import_class mc _ _); [| discriminate].
  unfold bind, isdir, raise, ret.
  destruct (negb (bool_decide _)); [discriminate |].
  destruct (negb (bool_decide _)); [discriminate |].
  intros [= <- _]. reflexivity.
Qed.

(** ** The parts of [predict] *)

(** The first statement of [predict] runs probes and nothing else. *)
Lemma predict_dependencies_shell (mc : machine) (self : porter) :
  exists (r : result unit) (cmds : list string),
    forall w,
      (if negb (tested_env_dependencies self)
       then test_dependencies mc (target_language self) else ret tt) w
      = (r, {| fs := fs w; log := log w ++ map Shell cmds |}).
Proof.
  destruct (tested_env_dependencies self); cbn.
  - exists (Ok tt), []. intros [f l]. unfold ret. cbn. now rewrite app_nil_r.
  - apply test_dependencies_shell.
Qed.

Lemma log_grows_predict_rows (mc : machine) (exec_cmd : list string)
  (tnp_dir : string) (rows : list (list string)) :
  log_grows (predict_rows mc exec_cmd tnp_dir rows).
Proof.
  induction rows as [| x rest IH]; cbn [predict_rows]; grows.
Qed.

#[local] Hint Resolve log_grows_predict_rows : grows.

Lemma log_grows_export (self : porter) (class_name method_name : string)
  (details : bool) : log_grows (export self class_name method_name details).
Proof.
  unfold export. grows.
Qed.

#[local] Hint Resolve log_grows_export : grows.

Lemma check_output_ok (mc : machine) (argv : list string) (cwd : string)
  (w : world) (out : string) :
  run_check_output mc argv cwd (fs w) = Exited 0 out ->
  check_output mc argv cwd w
  = (Ok out, {| fs := fs w; log := log w ++ [Spawn argv (Some cwd)] |}).
Proof. intros H. unfold check_output. now rewrite H. Qed.

Lemma check_output_ok_inv (mc : machine) (argv : list string) (cwd : string)
  (w w' : world) (out : string) :
  check_output mc argv cwd w = (Ok out, w') ->
  run_check_output mc argv cwd (fs w) = Exited 0 out /\ fs w' = fs w.
Proof.
  unfold check_output.
  destruct (run_check_output mc argv cwd (fs w)) as [[| ? | ?] o |];
    try discriminate.
  intros [= -> <-]. now split.
Qed.

Lemma to_int_ok_inv (pred : string) (w w' : world) (v : Z) :
  to_int pred w = (Ok v, w') -> PyStr.int pred = Some v /\ w' = w.
Proof.
  unfold to_int. destruct (PyStr.int pred); [| discriminate].
  intros [= -> <-]. now split.
Qed.

Lemma store_long_ok_inv (v : Z) (w w' : world) (u : unit) :
  store_long v w = (Ok u, w') -> fits_long v = true /\ w' = w.
Proof.
  unfold store_long. destruct (fits_long v); [| discriminate].
  intros [= _ <-]. now split.
Qed.

(** A matrix that is predicted row by row: each label is the integer the
    program prints for that row on the files as they were before the first
    row, and it fits a C long. *)
Lemma predict_rows_ok_inv (mc : machine) (exec_cmd : list string) (tnp_dir : string)
  (rows : list (list string)) :
  forall (w w' : world) (ys : list Z),
    predict_rows mc exec_cmd tnp_dir rows w = (Ok ys, w') ->
    fs w' = fs w /\
    Forall2 (fun x v =>
               exists pred,
                 run_check_output mc (exec_cmd ++ map PyStr.strip x) tnp_dir (fs w)
                 = Exited 0 pred /\
                 PyStr.int pred = Some v /\ fits_long v = true)
            rows ys.
Proof.
  induction rows as [| x rest IH]; intros w w' ys H; cbn [predict_rows] in H.
  - injection H as <- <-. split; [reflexivity | constructor].
  - bind_inv H as pred w1 Hout. bind_inv H as v w2 Hint.
    bind_inv H as u w3 Hfit. bind_inv H as ys' w4 Hrest.
    injection H as <- <-.
    apply check_output_ok_inv in Hout as [Hout Hfs1].
    apply to_int_ok_inv in Hint as [Hint ->].
    apply store_long_ok_inv in Hfit as [Hfit ->].
    apply IH in Hrest as [Hfs4 Hall]. rewrite Hfs1 in Hfs4, Hall.
    split; [exact Hfs4 |]. constructor; [| exact Hall].
    exists pred. auto.
Qed.

(** The loop returns when the program prints, for each row, an integer that
    fits a C long. *)
Lemma predict_rows_ok (mc : machine) (exec_cmd : list string) (tnp_dir : string)
  (rows : list (list string)) :
  forall (w : world),
    Forall (fun x =>
              exists pred v,
                run_check_output mc (exec_cmd ++ map PyStr.strip x) tnp_dir (fs w)
                = Exited 0 pred /\
                PyStr.int pred = Some v /\ fits_long v = true)
           rows ->
    exists ys w', predict_rows mc exec_cmd tnp_dir rows w = (Ok ys, w') /\ fs w' = fs w.
Proof.
  induction rows as [| x rest IH]; intros w Hall.
  - now exists [], w.
  - apply Forall_cons in Hall as [(pred & v & Hout & Hint & Hfit) Hall].
    set (w1 := {| fs := fs w;
                  log := log w ++ [Spawn (exec_cmd ++ map PyStr.strip x) (Some tnp_dir)] |}).
    destruct (IH w1 Hall) as (ys & w' & Hrest & Hfs).
    exists (v :: ys), w'. split; [| exact Hfs].
    cbn [predict_rows].
    rewrite (bind_ok _ _ _ _ _ (check_output_ok _ _ _ _ _ Hout)).
    unfold to_int. rewrite Hint. rewrite bind_ret.
    unfold store_long. rewrite Hfit. rewrite bind_ret.
    fold w1. now rewrite (bind_ok _ _ _ _ _ Hrest).
Qed.

(** ** An unsupported method *)

(** C3, as stated, fails for [predict]: the template lacks [predict], and
    the three probe processes have run when the error is raised. *)
Lemma predict_probes_before_method_check :
  let r := predict caching proba_porter (Vector ["1.0"]) "Brain" "predict" "tmp"
             false w0 in
  (__init__ caching (a_model "ProbaOnly") "js" "predict_proba" w0).1 = Ok proba_porter /\
  ("predict" ∉ SUPPORTED_METHODS (template proba_porter)) /\
  r.1 = Raise (AttributeError "The given model method 'predict' isn't supported.") /\
  log r.2 = replicate 3 (Shell "if hash node 2/dev/null; then echo 1; else echo 0; fi") /\
  ~ (log r.2 = log w0).
Proof.
  cbv zeta. repeat split; try (vm_compute; reflexivity).
  - intros H. vm_compute in H. apply list_elem_of_In in H. cbn in H.
    destruct H as [H | []]. discriminate.
  - vm_compute. discriminate.
Qed.

(** C3, amended.  [__init__] never changes a file nor starts a process, and
    with a supported model and language it raises the unsupported-method
    error for a method outside the class's set.  [predict], on a template
    without [predict], raises; all it has done by then is run toolchain
    probes: no file is written, no workspace, compiler or program process
    started; the error is the unsupported-method one when the probes pass or
    are skipped. *)
Theorem unsupported_method_fails_early (mc : machine) :
  (forall m language method w, (__init__ mc m language method w).2 = w) /\
  (forall m language method w clazz,
     is_classifier m = true ->
     import_class mc ("classifier." +:+ type_name m) (type_name m) = Some clazz ->
     fs w !! template_dir_of mc "classifier" (type_name m)
               (PyStr.lower (PyStr.strip language)) = Some Dir ->
     method ∉ SUPPORTED_METHODS clazz ->
     (__init__ mc m language method w).1
     = Raise (AttributeError
         ("The given model method '" +:+ method +:+ "' isn't supported."))) /\
  (forall self X class_name method_name tnp_dir keep_tmp_dir w,
     "predict" ∉ SUPPORTED_METHODS (template self) ->
     exists e cmds,
       predict mc self X class_name method_name tnp_dir keep_tmp_dir w
       = (Raise e, {| fs := fs w; log := log w ++ map Shell cmds |}) /\
       (tested_env_dependencies self = true \/
        (test_dependencies mc (target_language self) w).1 = Ok tt ->
        e = AttributeError "The given model method 'predict' isn't supported.")).
Proof.
  split; [apply init_world | split].
  - intros m language method w clazz Hcls Himp Hdir Hmeth.
    unfold __init__, algorithm_type_of, algorithm_name_of. rewrite Hcls.
    change ("classifier" +:+ "." +:+ type_name m) with ("classifier." +:+ type_name m).
    rewrite Himp. unfold bind, isdir.
    rewrite (bool_decide_eq_true_2 _ Hdir). cbn [negb].
    rewrite (bool_decide_eq_false_2 _ Hmeth). cbn [negb]. unfold raise. cbn [fst].
    reflexivity.
  - intros self X class_name method_name tnp_dir keep_tmp_dir w Hmeth.
    destruct (predict_dependencies_shell mc self) as (r & cmds & Hdeps).
    unfold predict. destruct r as [[] | e].
    + eexists _, cmds. split.
      * rewrite (bind_ok _ _ _ _ _ (Hdeps w)).
        rewrite (bool_decide_eq_false_2 _ Hmeth). cbn [negb].
        unfold bind at 1. unfold raise at 1. reflexivity.
      * reflexivity.
    + exists e, cmds. split.
      * now rewrite (bind_raise _ _ _ _ _ (Hdeps w)).
      * intros [Ht | Ht].
        -- specialize (Hdeps w). rewrite Ht in Hdeps. discriminate.
        -- specialize (Hdeps w). destruct (tested_env_dependencies self).
           ++ discriminate.
           ++ cbn in Hdeps. rewrite Hdeps in Ht. discriminate.
Qed.

(** The class without [predict]: asked for in [__init__], and in a call of
    [predict] on an instance made for [predict_proba]. *)
Lemma unsupported_method_fails_early_witness :
  (__init__ caching (a_model "ProbaOnly") "js" "predict" w0).1
  = Raise (AttributeError "The given model method 'predict' isn't supported.") /\
  exists e cmds,
    predict caching proba_porter (Vector ["1.0"]) "Brain" "predict" "tmp" false w0
    = (Raise e, {| fs := fs w0; log := log w0 ++ map Shell cmds |}) /\
    (tested_env_dependencies proba_porter = true \/
     (test_dependencies caching (target_language proba_porter) w0).1 = Ok tt ->
     e = AttributeError "The given model method 'predict' isn't supported.").
Proof.
  destruct (unsupported_method_fails_early caching) as (_ & Hinit & Hpredict).
  split.
  - apply (Hinit (a_model "ProbaOnly") "js" "predict" w0 proba_only).
    + reflexivity.
    + reflexivity.
    + vm_compute. reflexivity.
    + intros H. apply list_elem_of_In in H. cbn in H.
      destruct H as [H | []]. discriminate.
  - apply Hpredict. intros H. apply list_elem_of_In in H. cbn in H.
    destruct H as [H | []]. discriminate.
Defined.

(** ** The workspace is removed first *)

(** The first two statements of [predict], once the probes have passed or
    are skipped and the template supports [predict]: some probes, and the
    files as they were. *)
Lemma predict_checks_pass (mc : machine) (self : porter) (w : world) :
  tested_env_dependencies self = true \/
  (test_dependencies mc (target_language self) w).1 = Ok tt ->
  exists cmds : list string,
    forall w1,
      (if negb (tested_env_dependencies self)
       then test_dependencies mc (target_language self) else ret tt) w1
      = (Ok tt, {| fs := fs w1; log := log w1 ++ map Shell cmds |}).
Proof.
  intros Hdeps.
  destruct (predict_dependencies_shell mc self) as (r & cmds & Hshell).
  assert (r = Ok tt) as ->.
  { specialize (Hshell w). destruct Hdeps as [Ht | Ht].
    - rewrite Ht in Hshell. cbn in Hshell. now injection Hshell as <- _.
    - destruct (tested_env_dependencies self); cbn in Hshell.
      + now injection Hshell as <- _.
      + rewrite Hshell in Ht. exact Ht. }
  now exists cmds.
Qed.

(** C9, as stated, fails where [rm] is missing.  Of [java], [javac], [mkdir]
    and [rm] only [java] is installed; the probes pass all the same, the
    call gets to the workspace, [rm] cannot be started, and [predict] raises
    with everything in the workspace as it was. *)
Lemma predict_without_rm_keeps_workspace :
  let r := predict java_only java_porter (Vector ["1.0"]) "Brain" "predict" "tmp"
             false w0 in
  (test_dependencies java_only (target_language java_porter) w0).1 = Ok tt /\
  "predict" ∈ SUPPORTED_METHODS (template java_porter) /\
  r.1 = Raise (OSError ["rm"; "-rf"; "tmp"]) /\
  last (log r.2) = Some (Spawn ["rm"; "-rf"; "tmp"] None) /\
  fs r.2 = fs w0 /\
  fs r.2 !! "tmp/notes.txt" = Some (File "kept since last week").
Proof.
  cbv zeta. repeat split; try (vm_compute; reflexivity).
  apply list_elem_of_In. cbn. left. reflexivity.
Qed.

(** C9, amended: a call of [predict] that gets past its two checks starts
    [rm -rf] on the workspace path before it reads or writes a file,
    whatever is there and whatever happens later.  Where [rm] can be
    started, [mkdir] on that path comes next, and the rest of the call works
    on the files [rm] has left: what [rm] removes is without influence on
    what the call returns or raises, logs and leaves behind, so that from
    two worlds [rm] makes the same files of, the call ends the same way; this
    holds when the call fails later as well.  Where [rm] cannot be started,
    the call raises [OSError] there and the files are as before. *)
Theorem predict_wipes_workspace (mc : machine) (self : porter) (X : ndarray)
  (class_name method_name tnp_dir : string) (keep_tmp_dir : bool) (w : world) :
  tested_env_dependencies self = true \/
  (test_dependencies mc (target_language self) w).1 = Ok tt ->
  "predict" ∈ SUPPORTED_METHODS (template self) ->
  let rm := ["rm"; "-rf"; tnp_dir] in
  let r := predict mc self X class_name method_name tnp_dir keep_tmp_dir w in
  exists cmds : list string,
    (has_program mc "rm" = true ->
     (exists l,
        log r.2
        = log w ++ map Shell cmds ++ [Spawn rm None; Spawn ["mkdir"; tnp_dir] None] ++ l) /\
     (forall w2,
        run_util mc rm (fs w2) = run_util mc rm (fs w) ->
        log w2 = log w ->
        predict mc self X class_name method_name tnp_dir keep_tmp_dir w2 = r)) /\
    (has_program mc "rm" = false ->
     r = (Raise (OSError rm),
          {| fs := fs w; log := log w ++ map Shell cmds ++ [Spawn rm None] |})).
Proof.
  intros Hdeps Hsup rm r.
  destruct (predict_checks_pass mc self w Hdeps) as [cmds Hshell].
  exists cmds.
  assert (Hstart : exists k : unit -> M prediction,
            (forall u, log_grows (k u)) /\
            forall w1,
              predict mc self X class_name method_name tnp_dir keep_tmp_dir w1
              = bind (call_rm_rf mc tnp_dir) (fun _ => bind (call_mkdir mc tnp_dir) k)
                  {| fs := fs w1; log := log w1 ++ map Shell cmds |}).
  { eexists. split; cycle 1.
    - intros w1. unfold predict.
      rewrite (bind_ok _ _ _ _ _ (Hshell w1)).
      rewrite (bool_decide_eq_true_2 _ Hsup). cbn [negb]. rewrite bind_ret.
      reflexivity.
    - intros u. grows. }
  destruct Hstart as (k & Hk & Hstart). unfold r. split.
  - intros Hrm. split.
    + rewrite Hstart, (bind_ok _ _ _ _ _ (call_rm_rf_ok mc tnp_dir _ Hrm)).
      match goal with
      | |- context [bind (call_mkdir mc tnp_dir) k ?w1] =>
          destruct (bind_log (call_mkdir mc tnp_dir) k w1 Hk) as [l Hl]
      end.
      exists l. rewrite Hl. unfold call_mkdir. rewrite call_here_log.
      cbn [log]. now rewrite <- !app_assoc.
    + intros w2 Hfs Hlog. rewrite !Hstart.
      rewrite (bind_ok _ _ _ _ _ (call_rm_rf_ok mc tnp_dir _ Hrm)).
      rewrite (bind_ok _ _ _ _ _ (call_rm_rf_ok mc tnp_dir _ Hrm)).
      cbn [fs log]. fold rm. now rewrite Hfs, Hlog.
  - intros Hrm. rewrite Hstart.
    rewrite (bind_raise _ _ _ _ _ (call_rm_rf_raise mc tnp_dir _ Hrm)).
    cbn [fs log]. now rewrite <- app_assoc.
Qed.

(** A call that keeps its workspace and fails in the ported program. *)
Lemma predict_wipes_workspace_witness :
  let rm := ["rm"; "-rf"; "tmp"] in
  let r := predict caching js_porter (Vector []) "Brain" "predict" "tmp" true w0 in
  exists cmds : list string,
    (has_program caching "rm" = true ->
     (exists l,
        log r.2
        = log w0 ++ map Shell cmds ++ [Spawn rm None; Spawn ["mkdir"; "tmp"] None] ++ l) /\
     (forall w2,
        run_util caching rm (fs w2) = run_util caching rm (fs w0) ->
        log w2 = log w0 ->
        predict caching js_porter (Vector []) "Brain" "predict" "tmp" true w2 = r)) /\
    (has_program caching "rm" = false ->
     r = (Raise (OSError rm),
          {| fs := fs w0; log := log w0 ++ map Shell cmds ++ [Spawn rm None] |})).
Proof.
  apply (predict_wipes_workspace caching js_porter (Vector []) "Brain" "predict"
           "tmp" true w0).
  - right. vm_compute. reflexivity.
  - apply list_elem_of_In. cbn. left. reflexivity.
Defined.

(** On a machine with [rm], the notes kept in [tmp] do not survive a call,
    kept workspace or not. *)
Example predict_loses_notes :
  let r := predict caching js_porter (Vector ["1.0"]) "Brain" "predict" "tmp" true w0 in
  fs w0 !! "tmp/notes.txt" = Some (File "kept since last week") /\
  r.1 = Ok (Label 1) /\
  fs r.2 !! "tmp/notes.txt" = None /\
  fs r.2 !! "tmp/brain.js" = Some (File "// Brain.predict").
Proof. vm_compute. repeat split; reflexivity. Qed.

(** ** The workspace after [predict] *)

(** C6, as stated, fails on an error path: the ported program exits with
    status 1, [predict] raises, and the workspace stays with the source
    written to it, on a machine whose [rm] would have removed it. *)
Lemma predict_error_keeps_workspace :
  let r := predict caching js_porter (Vector []) "Brain" "predict" "tmp" false w0 in
  r.1 = Raise (CalledProcessError 1 ["node"; "brain.js"]
                 ("usage: predict <features>" +:+ newline)) /\
  fs r.2 !! "tmp" = Some Dir /\
  fs r.2 !! "tmp/brain.js" = Some (File "// Brain.predict") /\
  run_util caching ["rm"; "-rf"; "tmp"] (fs r.2) !! "tmp/brain.js" = None.
Proof. cbv zeta. repeat split; vm_compute; reflexivity. Qed.

(** C6, amended: when [predict] returns and the keep flag is unset, the last
    thing it has done is run [rm -rf] on the workspace path.  The call with
    the flag set returns the same, and the files are what this [rm] leaves
    of the files that call keeps: an entry that [rm -rf] of the workspace
    path removes, whatever the files are, is not there when the call
    returns. *)
Theorem predict_success_removes_workspace (mc : machine) (self : porter)
  (X : ndarray) (class_name method_name tnp_dir : string) (w : world)
  (y : prediction) :
  (predict mc self X class_name method_name tnp_dir false w).1 = Ok y ->
  let rm := ["rm"; "-rf"; tnp_dir] in
  let after := (predict mc self X class_name method_name tnp_dir false w).2 in
  let kept := predict mc self X class_name method_name tnp_dir true w in
  kept.1 = Ok y /\
  after = {| fs := run_util mc rm (fs kept.2); log := log kept.2 ++ [Spawn rm None] |} /\
  forall p,
    (forall files, run_util mc rm files !! p = None) -> fs after !! p = None.
Proof.
  destruct (predict mc self X class_name method_name tnp_dir false w)
    as [r w'] eqn:H.
  cbn [fst snd]. intros ->. cbv zeta. unfold predict in H.
  bind_inv H as u1 w1 Hdeps. bind_inv H as u2 w2 Hsup.
  bind_inv H as u3 w3 Hrm. bind_inv H as u4 w4 Hmk.
  bind_inv H as out w5 Hexp.
  destruct out as [src | dd]; [discriminate |]. cbv zeta in H.
  bind_inv H as u6 w6 Hwr. bind_inv H as u7 w7 Hcomp.
  bind_inv H as y' w8 Hrun. bind_inv H as u9 w9 Hclean.
  cbn [negb] in Hclean. apply call_rm_rf_ok_inv in Hclean as [_ ->].
  unfold ret in H. injection H as <- <-.
  assert (Hkept : predict mc self X class_name method_name tnp_dir true w
                  = (Ok y', w8)).
  { unfold predict.
    rewrite (bind_ok _ _ _ _ _ Hdeps), (bind_ok _ _ _ _ _ Hsup).
    rewrite (bind_ok _ _ _ _ _ Hrm), (bind_ok _ _ _ _ _ Hmk).
    rewrite (bind_ok _ _ _ _ _ Hexp). cbv zeta.
    rewrite (bind_ok _ _ _ _ _ Hwr), (bind_ok _ _ _ _ _ Hcomp).
    now rewrite (bind_ok _ _ _ _ _ Hrun). }
  rewrite Hkept. cbn [fst snd]. split; [reflexivity |]. split; [reflexivity |].
  intros p Hp. cbn [fs]. apply Hp.
Qed.

(** A call that returns: the source it wrote is gone. *)
Lemma predict_success_removes_workspace_witness :
  fs (predict caching js_porter (Vector ["1.0"; "2.5"]) "Brain" "predict" "tmp"
        false w0).2 !! "tmp/brain.js" = None.
Proof.
  apply (predict_success_removes_workspace caching js_porter
           (Vector ["1.0"; "2.5"]) "Brain" "predict" "tmp" w0 (Label 1)).
  - vm_compute. reflexivity.
  - intros files. apply remove_tree_below. reflexivity.
Defined.

(** ** The probes are run by every call of [predict] *)

(** An instance whose flag is unset, as [__init__] leaves it, starts each
    call of [predict] with the probe of the first executable of its
    language. *)
Lemma predict_always_probes (mc : machine) (self : porter) (X : ndarray)
  (class_name method_name tnp_dir : string) (keep_tmp_dir : bool) (w : world)
  (exe : string) (deps : list string) :
  tested_env_dependencies self = false ->
  depends !! target_language self = Some (exe :: deps) ->
  exists l,
    log (predict mc self X class_name method_name tnp_dir keep_tmp_dir w).2
    = log w ++ Shell (PyStr.format probe_template [exe]) :: l.
Proof.
  intros Hflag Hdep. unfold predict. rewrite Hflag. cbn [negb].
  match goal with
  | |- context [bind _ ?k w] =>
      assert (Hk : forall a, log_grows (k a)) by (intros []; grows);
      destruct (bind_log (test_dependencies mc (target_language self)) k w Hk)
        as [l Hl]
  end.
  rewrite Hl.
  destruct (test_dependencies_one_command mc _ _ _ w Hdep) as [n Hn].
  rewrite Hn. cbn [replicate]. rewrite <- app_assoc. now eexists.
Qed.

(** C7, the code at a failing input: two calls of [predict] on one instance;
    the second call runs the three probes again. *)
Theorem predict_probes_on_every_call :
  let X := Vector ["1.0"; "2.5"] in
  let first := predict caching js_porter X "Brain" "predict" "tmp" false w0 in
  let second := predict caching js_porter X "Brain" "predict" "tmp" false first.2 in
  (__init__ caching (a_model "SVC") "js" "predict" w0).1 = Ok js_porter /\
  first.1 = Ok (Label 1) /\
  second.1 = Ok (Label 1) /\
  filter is_shell (drop (length (log first.2)) (log second.2))
  = replicate 3 (Shell "if hash node 2/dev/null; then echo 1; else echo 0; fi").
Proof. vm_compute. repeat split; reflexivity. Qed.

(** ** One row at a time *)

(** C1: when [predict] returns on a matrix, it returns an array with one
    label for each row, in the order of the rows, and the label at an index
    is what [predict] returns for that row given alone as a vector, with the
    same names and workspace, from the same state of the machine. *)
Theorem predict_matrix_rows (mc : machine) (self : porter)
  (rows : list (list string)) (class_name method_name tnp_dir : string)
  (keep_tmp_dir : bool) (w : world) (y : prediction) :
  (predict mc self (Matrix rows) class_name method_name tnp_dir keep_tmp_dir w).1
  = Ok y ->
  exists ys : list Z,
    y = Labels ys /\
    length ys = length rows /\
    forall (i : nat) (x : list string),
      rows !! i = Some x ->
      exists v : Z,
        ys !! i = Some v /\
        (predict mc self (Vector x) class_name method_name tnp_dir keep_tmp_dir w).1
        = Ok (Label v).
Proof.
  destruct (predict mc self (Matrix rows) class_name method_name tnp_dir
              keep_tmp_dir w) as [r w'] eqn:H.
  cbn [fst]. intros ->. unfold predict in H.
  bind_inv H as u1 w1 Hdeps. bind_inv H as u2 w2 Hsup.
  bind_inv H as u3 w3 Hrm. bind_inv H as u4 w4 Hmk.
  bind_inv H as out w5 Hexp.
  destruct out as [src | dd]; [discriminate |]. cbv zeta in H.
  bind_inv H as u6 w6 Hwr. bind_inv H as u7 w7 Hcomp.
  bind_inv H as y' w8 Hrun. bind_inv H as u9 w9 Hclean.
  injection H as <- _.
  bind_inv Hrun as ys w7' Hrows. injection Hrun as <- _.
  apply predict_rows_ok_inv in Hrows as [_ Hall].
  exists ys. split; [reflexivity |]. split.
  - symmetry. exact (Forall2_length _ _ _ Hall).
  - intros i x Hx.
    destruct (Forall2_lookup_l _ _ _ _ _ Hall Hx) as (v & Hv & pred & Hout & Hint & _).
    exists v. split; [exact Hv |]. unfold predict.
    rewrite (bind_ok _ _ _ _ _ Hdeps), (bind_ok _ _ _ _ _ Hsup).
    rewrite (bind_ok _ _ _ _ _ Hrm), (bind_ok _ _ _ _ _ Hmk).
    rewrite (bind_ok _ _ _ _ _ Hexp). cbv zeta.
    rewrite (bind_ok _ _ _ _ _ Hwr), (bind_ok _ _ _ _ _ Hcomp).
    unfold bind at 1. unfold bind at 1.
    rewrite (check_output_ok _ _ _ _ _ Hout).
    unfold bind at 1. unfold to_int. rewrite Hint. unfold ret at 1 2.
    match goal with
    | |- context [bind (if negb keep_tmp_dir then _ else _) _ ?w1] =>
        destruct (cleanup_ok _ _ _ _ _ _ Hclean w1) as [w9' Hclean']
    end.
    now rewrite (bind_ok _ _ _ _ _ Hclean').
Qed.

(** The matrix of two rows on which the fixture answers 1 and 0. *)
Lemma predict_matrix_rows_witness :
  exists ys : list Z,
    Labels [1; 0]%Z = Labels ys /\
    length ys = length [["1.0"; "2.5"]; ["0.0"; " 3"]] /\
    forall (i : nat) (x : list string),
      [["1.0"; "2.5"]; ["0.0"; " 3"]] !! i = Some x ->
      exists v : Z,
        ys !! i = Some v /\
        (predict caching js_porter (Vector x) "Brain" "predict" "tmp" false w0).1
        = Ok (Label v).
Proof.
  apply (predict_matrix_rows caching js_porter [["1.0"; "2.5"]; ["0.0"; " 3"]]
           "Brain" "predict" "tmp" false w0 (Labels [1; 0]%Z)).
  vm_compute. reflexivity.
Defined.

(** The other way round: when [predict] returns a label that fits a C long
    for each row given alone, it returns on the matrix of these rows. *)
Lemma predict_matrix_returns (mc : machine) (self : porter) (x0 : list string)
  (rest : list (list string)) (class_name method_name tnp_dir : string)
  (keep_tmp_dir : bool) (w : world) :
  Forall (fun x =>
            exists v,
              (predict mc self (Vector x) class_name method_name tnp_dir
                 keep_tmp_dir w).1 = Ok (Label v) /\
              fits_long v = true)
         (x0 :: rest) ->
  exists ys,
    (predict mc self (Matrix (x0 :: rest)) class_name method_name tnp_dir
       keep_tmp_dir w).1 = Ok (Labels ys).
Proof.
  intros Hall. pose proof Hall as Hall0.
  apply Forall_cons in Hall0 as [(v0 & H & _) _].
  destruct (predict mc self (Vector x0) class_name method_name tnp_dir
              keep_tmp_dir w) as [r w'] eqn:H0.
  cbn [fst] in H. subst r. unfold predict in H0.
  bind_inv H0 as u1 w1 Hdeps. bind_inv H0 as u2 w2 Hsup.
  bind_inv H0 as u3 w3 Hrm. bind_inv H0 as u4 w4 Hmk.
  bind_inv H0 as out w5 Hexp.
  destruct out as [src | dd]; [discriminate |]. cbv zeta in H0.
  bind_inv H0 as u6 w6 Hwr. bind_inv H0 as u7 w7 Hcomp.
  bind_inv H0 as y0 w8 Hrun0. bind_inv H0 as u9 w9 Hclean. clear H0.
  assert (Hrows : Forall (fun x =>
            exists pred v,
              run_check_output mc
                (PyStr.split (PyStr.str_opt (d_execution dd)) ++ map PyStr.strip x)
                tnp_dir (fs w7) = Exited 0 pred /\
              PyStr.int pred = Some v /\ fits_long v = true) (x0 :: rest)).
  { eapply Forall_impl; [exact Hall |]. cbv beta.
    intros x (v & Hx & Hfit).
    destruct (predict mc self (Vector x) class_name method_name tnp_dir
                keep_tmp_dir w) as [r wx] eqn:Hp.
    cbn [fst] in Hx. subst r. unfold predict in Hp.
    rewrite (bind_ok _ _ _ _ _ Hdeps), (bind_ok _ _ _ _ _ Hsup) in Hp.
    rewrite (bind_ok _ _ _ _ _ Hrm), (bind_ok _ _ _ _ _ Hmk) in Hp.
    rewrite (bind_ok _ _ _ _ _ Hexp) in Hp. cbv zeta in Hp.
    rewrite (bind_ok _ _ _ _ _ Hwr), (bind_ok _ _ _ _ _ Hcomp) in Hp.
    bind_inv Hp as y' wx8 Hrun. bind_inv Hp as ux9 wx9 Hcleanx.
    injection Hp as -> _.
    bind_inv Hrun as pred w8' Hout. bind_inv Hrun as v' w8'' Hint.
    injection Hrun as -> _.
    apply check_output_ok_inv in Hout as [Hout _].
    apply to_int_ok_inv in Hint as [Hint _].
    exists pred, v. auto. }
  destruct (predict_rows_ok _ _ _ _ _ Hrows) as (ys & w8r & Hpr & _).
  exists ys. unfold predict.
  rewrite (bind_ok _ _ _ _ _ Hdeps), (bind_ok _ _ _ _ _ Hsup).
  rewrite (bind_ok _ _ _ _ _ Hrm), (bind_ok _ _ _ _ _ Hmk).
  rewrite (bind_ok _ _ _ _ _ Hexp). cbv zeta.
  rewrite (bind_ok _ _ _ _ _ Hwr), (bind_ok _ _ _ _ _ Hcomp).
  unfold bind at 1. unfold bind at 1. rewrite Hpr. unfold ret at 1.
  destruct (cleanup_ok _ _ _ _ _ _ Hclean w8r) as [w9' Hclean'].
  now rewrite (bind_ok _ _ _ _ _ Hclean').
Qed.

(** ** [GaussianNB.port] *)

(** C10: when the templates of the language load, [port] returns the
    estimator's [str] whatever the method, the number format, the class name
    and the method name are; two calls that differ in those only return, and
    print, the same. *)
Theorem port_ignores_naming_arguments {E T N : Type} (str_estimator : E -> string)
  (keys_str : T -> string) (self : GaussianNB.gaussian_nb E T) (to : string)
  (temps : T) (method method' : string) (with_num_format with_num_format' : N -> string)
  (with_class_name with_class_name' with_method_name with_method_name' : option string) :
  GaussianNB.load_templates self to = Ok temps ->
  (GaussianNB.port str_estimator keys_str self method to with_num_format
     with_class_name with_method_name).1
  = Ok (str_estimator (GaussianNB.estimator self)) /\
  GaussianNB.port str_estimator keys_str self method to with_num_format
    with_class_name with_method_name
  = GaussianNB.port str_estimator keys_str self method' to with_num_format'
      with_class_name' with_method_name'.
Proof.
  intros Hload. unfold GaussianNB.port. rewrite Hload. split; reflexivity.
Qed.

(** Two calls for Java that differ in all four arguments. *)
Lemma port_ignores_naming_arguments_witness :
  (GaussianNB.port id show_keys nb "predict" "java" (fun z : Z => "0") None None).1
  = Ok "GaussianNB(priors=None)" /\
  GaussianNB.port id show_keys nb "predict" "java" (fun z : Z => "0") None None
  = GaussianNB.port id show_keys nb "predict_proba" "java" (fun z : Z => "1.5")
      (Some "Brain") (Some "classify").
Proof.
  apply (port_ignores_naming_arguments id show_keys nb "java" ["class"; "method"]).
  reflexivity.
Defined.

(** * More properties of the code *)

(** ** File names and command lines *)

Lemma lower_char_idemp (c : ascii) :
  PyStr.lower_char (PyStr.lower_char c) = PyStr.lower_char c.
Proof. destruct c as [[] [] [] [] [] [] [] []]; reflexivity. Qed.

Lemma lower_idemp (s : string) : PyStr.lower (PyStr.lower s) = PyStr.lower s.
Proof.
  induction s as [| c s IH]; cbn [PyStr.lower]; [reflexivity |].
  now rewrite lower_char_idemp, IH.
Qed.

(** X1: a language without entry in the table of suffixes is its own suffix,
    and the base name is the lower-cased class name. *)
Theorem get_filename_unknown_language (class_name language : string) :
  suffix !! language = None ->
  get_filename class_name language = PyStr.lower class_name +:+ "." +:+ language.
Proof.
  intros Hnone. rewrite get_filename_eq, Hnone. cbn [default].
  destruct (String.eqb_spec language "java") as [-> | _]; [| reflexivity].
  unfold suffix in Hnone. revert Hnone. dict_lookup. discriminate.
Qed.

Lemma get_filename_unknown_language_witness :
  get_filename "Brain" "swift" = PyStr.lower "Brain" +:+ "." +:+ "swift".
Proof.
  apply (get_filename_unknown_language "Brain" "swift").
  vm_compute. reflexivity.
Defined.

(** X2: the file name does not tell class names apart that differ in case
    only: the name of a class and the name of its lower-cased spelling are
    the same, for every language. *)
Theorem get_filename_ignores_case (class_name language : string) :
  get_filename (PyStr.lower class_name) language = get_filename class_name language.
Proof. rewrite !get_filename_eq. now rewrite lower_idemp. Qed.

(** X3: a language other than the five with an execution command has no
    command at all, whatever the file and the class are called. *)
Theorem get_commands_unknown_language (filename class_name language : string) :
  language ∉ ["c"; "java"; "js"; "php"; "ruby"] ->
  get_commands filename class_name language = (None, None).
Proof.
  intros Hout. unfold get_commands, comp_vars, exec_vars.
  assert (Hne : forall k, k ∈ ["c"; "java"; "js"; "php"; "ruby"] -> k <> language).
  { intros k Hk ->. exact (Hout Hk). }
  rewrite !lookup_insert_ne by (apply Hne; repeat constructor).
  rewrite !lookup_singleton_ne by (apply Hne; repeat constructor).
  reflexivity.
Qed.

Lemma get_commands_unknown_language_witness :
  get_commands "brain.swift" "Brain" "swift" = (None, None).
Proof.
  apply (get_commands_unknown_language "brain.swift" "Brain" "swift").
  intros H. repeat (apply elem_of_cons in H as [H | H]; [discriminate |]).
  now apply elem_of_nil in H.
Defined.

(** ** The verdict of [test_dependencies] *)

(** A command without field, run for each executable in turn: when its
    output passes the test, all the probes run and pass. *)
Lemma probe_all_fixed_pass (mc : machine) (exes : list string) (cmd : string) :
  (forall exe, PyStr.format cmd [exe] = cmd) ->
  py_is (strip_obj mc (sh mc cmd)) lit_1 = true ->
  forall w,
    probe_all mc exes cmd w
    = (Ok tt, {| fs := fs w; log := log w ++ replicate (length exes) (Shell cmd) |}).
Proof.
  intros Hcmd Hpass. induction exes as [| exe rest IH]; intros w.
  - destruct w as [f l]. cbn. unfold ret. now rewrite app_nil_r.
  - rewrite probe_all_cons. cbv zeta. rewrite Hcmd, Hpass, IH. cbn.
    now rewrite <- app_assoc.
Qed.

(** The probe of an executable of the table holds no field. *)
Lemma probe_command_filled (language exe exe' : string) (deps : list string) :
  depends !! language = Some (exe :: deps) ->
  PyStr.format (PyStr.format probe_template [exe]) [exe']
  = PyStr.format probe_template [exe].
Proof.
  intros Hdep. apply format_no_field. unfold depends in Hdep.
  repeat (rewrite lookup_insert in Hdep; case_decide;
          [simplify_eq; vm_compute; reflexivity |]).
  rewrite lookup_singleton in Hdep. case_decide; [| discriminate].
  simplify_eq. vm_compute. reflexivity.
Qed.

(** X4: for a language of the table, the probe of the first executable
    decides the call.  When its output passes the test, the call returns
    after one probe for each executable and for [mkdir] and [rm], all of
    them running that one command; when it does not, the call raises after
    this one probe, and the error names the first executable.  No other
    executable is ever reported, and no file is touched. *)
Theorem test_dependencies_first_decides (mc : machine) (language exe : string)
  (deps : list string) (w : world) :
  depends !! language = Some (exe :: deps) ->
  let cmd := PyStr.format probe_template [exe] in
  test_dependencies mc language w
  = if py_is (strip_obj mc (sh mc cmd)) lit_1
    then (Ok tt,
          {| fs := fs w; log := log w ++ replicate (length deps + 3) (Shell cmd) |})
    else (Raise (SystemError ("The required application '" +:+ exe
                              +:+ "' isn't available.")),
          {| fs := fs w; log := log w ++ [Shell cmd] |}).
Proof.
  intros Hdep cmd. unfold test_dependencies. rewrite Hdep.
  cbn [app]. rewrite probe_all_cons. cbv zeta. fold cmd.
  destruct (py_is (strip_obj mc (sh mc cmd)) lit_1) eqn:Hpass; [| reflexivity].
  rewrite probe_all_fixed_pass; [| intros exe'; apply (probe_command_filled _ _ _ _ Hdep)
                                 | exact Hpass].
  cbn [fs log]. rewrite length_app. cbn [length].
  replace (length deps + 3) with (S (length deps + 2)) by lia.
  cbn [replicate]. now rewrite <- app_assoc.
Qed.

Lemma test_dependencies_first_decides_witness :
  let cmd := PyStr.format probe_template ["java"] in
  test_dependencies java_only "java" w0
  = if py_is (strip_obj java_only (sh java_only cmd)) lit_1
    then (Ok tt,
          {| fs := fs w0;
             log := log w0 ++ replicate (length ["javac"] + 3) (Shell cmd) |})
    else (Raise (SystemError ("The required application '" +:+ "java"
                              +:+ "' isn't available.")),
          {| fs := fs w0; log := log w0 ++ [Shell cmd] |}).
Proof.
  apply (test_dependencies_first_decides java_only "java" "java" ["javac"] w0).
  vm_compute. reflexivity.
Defined.

(** ** [predict] and a failed probe *)

(** X5: when the probes fail, [predict] raises what [test_dependencies]
    raised and has done nothing else: only probe commands were run, no file
    was touched, no workspace made. *)
Theorem predict_stops_at_failed_probe (mc : machine) (self : porter) (X : ndarray)
  (class_name method_name tnp_dir : string) (keep_tmp_dir : bool) (w : world)
  (e : exn) :
  tested_env_dependencies self = false ->
  (test_dependencies mc (target_language self) w).1 = Raise e ->
  exists cmds,
    predict mc self X class_name method_name tnp_dir keep_tmp_dir w
    = (Raise e, {| fs := fs w; log := log w ++ map Shell cmds |}).
Proof.
  intros Hflag Hfail.
  destruct (test_dependencies_shell mc (target_language self)) as (r & cmds & Hshell).
  exists cmds. unfold predict. rewrite Hflag. cbn [negb].
  rewrite Hshell in Hfail. cbn [fst] in Hfail. subst r.
  now rewrite (bind_raise _ _ _ _ _ (Hshell w)).
Qed.

Lemma predict_stops_at_failed_probe_witness :
  exists cmds,
    predict allocating js_porter (Vector ["1.0"]) "Brain" "predict" "tmp" false w0
    = (Raise (SystemError "The required application 'node' isn't available."),
       {| fs := fs w0; log := log w0 ++ map Shell cmds |}).
Proof.
  apply (predict_stops_at_failed_probe allocating js_porter (Vector ["1.0"])
           "Brain" "predict" "tmp" false w0).
  - reflexivity.
  - vm_compute. reflexivity.
Defined.

(** X6: for a target language without entry in the table of dependencies,
    Go among them, [predict] on an instance whose flag is unset raises
    [TypeError] at once: no probe is run, nothing is changed. *)
Theorem predict_without_dependency_entry (mc : machine) (self : porter)
  (X : ndarray) (class_name method_name tnp_dir : string) (keep_tmp_dir : bool)
  (w : world) :
  tested_env_dependencies self = false ->
  depends !! target_language self = None ->
  predict mc self X class_name method_name tnp_dir keep_tmp_dir w
  = (Raise (TypeError "unsupported operand type(s) for +: 'NoneType' and 'list'"), w).
Proof.
  intros Hflag Hnone. unfold predict. rewrite Hflag. cbn [negb].
  apply bind_raise. unfold test_dependencies. now rewrite Hnone.
Qed.

Lemma predict_without_dependency_entry_witness :
  predict caching go_porter (Vector ["1.0"]) "Brain" "predict" "tmp" false w0
  = (Raise (TypeError "unsupported operand type(s) for +: 'NoneType' and 'list'"), w0).
Proof.
  apply (predict_without_dependency_entry caching go_porter (Vector ["1.0"])
           "Brain" "predict" "tmp" false w0).
  - reflexivity.
  - vm_compute. reflexivity.
Defined.

(** ** The processes of the loop over the rows *)

Lemma bind_raise_inv {A B} (m : M A) (k : A -> M B) (w w' : world) (e : exn) :
  bind m k w = (Raise e, w') ->
  m w = (Raise e, w') \/ exists a w1, m w = (Ok a, w1) /\ k a w1 = (Raise e, w').
Proof.
  unfold bind. destruct (m w) as [[a | e1] w1]; [eauto |].
  intros [= -> ->]. now left.
Qed.

Lemma check_output_log (mc : machine) (argv : list string) (cwd : string)
  (w : world) :
  (check_output mc argv cwd w).2
  = {| fs := fs w; log := log w ++ [Spawn argv (Some cwd)] |}.
Proof.
  unfold check_output.
  destruct (run_check_output mc argv cwd (fs w)) as [[| ? | ?] ? |]; reflexivity.
Qed.


(** The shape of a failure at the first row. *)
Lemma predict_rows_fails_first (mc : machine) (exec_cmd : list string)
  (tnp_dir : string) (x : list string) (rest : list (list string)) (w : world) :
  exists k : nat,
    k < length (x :: rest) /\
    {| fs := fs w; log := log w ++ [spawn_row exec_cmd tnp_dir x] |}
    = {| fs := fs w;
         log := log w ++ map (spawn_row exec_cmd tnp_dir) (take (S k) (x :: rest)) |} /\
    exists ys : list Z,
      length ys = k /\
      predict_rows mc exec_cmd tnp_dir (take k (x :: rest)) w
      = (Ok ys, {| fs := fs w;
                   log := log w ++ map (spawn_row exec_cmd tnp_dir)
                                     (take k (x :: rest)) |}).
Proof.
  exists 0. split; [cbn; lia |]. split; [reflexivity |].
  exists []. split; [reflexivity |]. destruct w as [f l]. cbn.
  unfold ret. now rewrite app_nil_r.
Qed.

(** X7: when the loop over the rows raises, it has started the processes of
    the rows up to the failing one, in order; the rows before it all gave a
    label, no process is started for a row after it, and no file is
    touched. *)
Theorem predict_rows_stops_at_failure (mc : machine) (exec_cmd : list string)
  (tnp_dir : string) (rows : list (list string)) (w w' : world) (e : exn) :
  predict_rows mc exec_cmd tnp_dir rows w = (Raise e, w') ->
  exists k : nat,
    k < length rows /\
    w' = {| fs := fs w;
            log := log w ++ map (spawn_row exec_cmd tnp_dir) (take (S k) rows) |} /\
    exists ys : list Z,
      length ys = k /\
      predict_rows mc exec_cmd tnp_dir (take k rows) w
      = (Ok ys, {| fs := fs w;
                   log := log w ++ map (spawn_row exec_cmd tnp_dir) (take k rows) |}).
Proof.
  revert w w' e. induction rows as [| x rest IH]; intros w w' e H.
  - discriminate.
  - cbn [predict_rows] in H. unfold bind at 1 in H.
    pose proof (check_output_log mc (exec_cmd ++ map PyStr.strip x) tnp_dir w) as Hlog.
    fold (spawn_row exec_cmd tnp_dir x) in Hlog.
    destruct (check_output mc (exec_cmd ++ map PyStr.strip x) tnp_dir w)
      as [[pred | e1] w1] eqn:Hout; cbn [snd] in Hlog; subst w1.
    2: { injection H as <- <-. apply predict_rows_fails_first. }
    unfold bind at 1 in H. unfold to_int in H.
    destruct (PyStr.int pred) as [v |] eqn:Hint.
    2: { unfold raise in H. injection H as <- <-. apply predict_rows_fails_first. }
    unfold ret at 1 in H. unfold bind at 1 in H. unfold store_long in H.
    destruct (fits_long v) eqn:Hfit.
    2: { unfold raise in H. injection H as <- <-. apply predict_rows_fails_first. }
    unfold ret at 1 in H.
    apply bind_raise_inv in H.
    destruct H as [Hrest | (ys' & w4 & Hrest & Hret)]; [| discriminate].
    apply IH in Hrest as (k & Hk & -> & ys & Hlen & Hpre).
    exists (S k). split; [cbn; lia |]. split.
    + cbn [fs log take map]. now rewrite <- app_assoc.
    + exists (v :: ys). split; [cbn; now rewrite Hlen |].
      cbn [take predict_rows].
      rewrite (bind_ok _ _ _ _ _ Hout). unfold to_int. rewrite Hint, bind_ret.
      unfold store_long. rewrite Hfit, bind_ret.
      rewrite (bind_ok _ _ _ _ _ Hpre). unfold ret. cbn [fs log map].
      now rewrite <- app_assoc.
Qed.

Lemma predict_rows_stops_at_failure_witness :
  exists k : nat,
    k < length [["1.0"]; []; ["0.0"]] /\
    {| fs := fs w_ready;
       log := [Spawn ["node"; "brain.js"; "1.0"] (Some "tmp");
               Spawn ["node"; "brain.js"] (Some "tmp")] |}
    = {| fs := fs w_ready;
         log := log w_ready
                ++ map (spawn_row ["node"; "brain.js"] "tmp")
                     (take (S k) [["1.0"]; []; ["0.0"]]) |} /\
    exists ys : list Z,
      length ys = k /\
      predict_rows caching ["node"; "brain.js"] "tmp"
        (take k [["1.0"]; []; ["0.0"]]) w_ready
      = (Ok ys, {| fs := fs w_ready;
                   log := log w_ready
                          ++ map (spawn_row ["node"; "brain.js"] "tmp")
                               (take k [["1.0"]; []; ["0.0"]]) |}).
Proof.
  apply (predict_rows_stops_at_failure caching ["node"; "brain.js"] "tmp"
           [["1.0"]; []; ["0.0"]] w_ready _
           (CalledProcessError 1 ["node"; "brain.js"]
              ("usage: predict <features>" +:+ newline))).
  vm_compute. reflexivity.
Defined.

(** ** The trace of a call that returns *)






(** ** What a kept workspace holds *)




(** ** The keep flag *)

(** Two computations that differ in what follows a common first part are
    related as soon as what follows is, result by result. *)
Lemma bind_related {A B} (R : result B * world -> result B * world -> Prop)
  (m : M A) (k1 k2 : A -> M B) (w : world) :
  (forall e w1, R (Raise e, w1) (Raise e, w1)) ->
  (forall a w1, m w = (Ok a, w1) -> R (k1 a w1) (k2 a w1)) ->
  R (bind m k1 w) (bind m k2 w).
Proof.
  intros Hraise Hok. unfold bind. destruct (m w) as [[a | e] w1]; auto.
Qed.

(** X10: the keep flag changes nothing but the last step.  A call returns
    the same prediction, or raises the same exception, with the flag set and
    unset; when it raises, the two calls leave the same files and log; when
    it returns, the call with the flag unset has run [rm -rf] on the
    workspace once more. *)
Theorem predict_keep_flag (mc : machine) (self : porter) (X : ndarray)
  (class_name method_name tnp_dir : string) (w : world) :
  let kept := predict mc self X class_name method_name tnp_dir true w in
  let removed := predict mc self X class_name method_name tnp_dir false w in
  kept.1 = removed.1 /\
  removed.2
  = match kept.1 with
    | Ok _ => {| fs := run_util mc ["rm"; "-rf"; tnp_dir] (fs kept.2);
                 log := log kept.2 ++ [Spawn ["rm"; "-rf"; tnp_dir] None] |}
    | Raise _ => kept.2
    end.
Proof.
  cbv zeta.
  set (R := fun kept removed : result prediction * world =>
              kept.1 = removed.1 /\
              removed.2
              = match kept.1 with
                | Ok _ => {| fs := run_util mc ["rm"; "-rf"; tnp_dir] (fs kept.2);
                             log := log kept.2 ++ [Spawn ["rm"; "-rf"; tnp_dir] None] |}
                | Raise _ => kept.2
                end).
  change (R (predict mc self X class_name method_name tnp_dir true w)
            (predict mc self X class_name method_name tnp_dir false w)).
  assert (Hraise : forall e w1, R (Raise e, w1) (Raise e, w1)) by (intros; now split).
  unfold predict.
  do 2 (apply bind_related; [exact Hraise | intros ? ? _]).
  apply bind_related; [exact Hraise | intros ? ? Hrm].
  apply call_rm_rf_ok_inv in Hrm as [Hrm _].
  do 2 (apply bind_related; [exact Hraise | intros ? ? _]).
  destruct a3 as [src | dd]; [apply Hraise |]. cbv zeta.
  do 3 (apply bind_related; [exact Hraise | intros ? ? _]).
  cbn [negb]. rewrite (bind_ok _ _ _ _ _ (call_rm_rf_ok mc tnp_dir _ Hrm)).
  now split.
Qed.

(** ** A label that does not fit the array *)

(** X11: a label that [predict] returns for a vector, and that is no C
    long, makes [predict] raise [OverflowError] on the matrix that has this
    vector for its only row. *)
Theorem predict_label_beyond_long (mc : machine) (self : porter) (x : list string)
  (class_name method_name tnp_dir : string) (keep_tmp_dir : bool) (w : world)
  (v : Z) :
  (predict mc self (Vector x) class_name method_name tnp_dir keep_tmp_dir w).1
  = Ok (Label v) ->
  fits_long v = false ->
  (predict mc self (Matrix [x]) class_name method_name tnp_dir keep_tmp_dir w).1
  = Raise (OverflowError "Python int too large to convert to C long").
Proof.
  destruct (predict mc self (Vector x) class_name method_name tnp_dir
              keep_tmp_dir w) as [r w'] eqn:H.
  cbn [fst]. intros -> Hbig. unfold predict in H.
  bind_inv H as u1 w1 Hdeps. bind_inv H as u2 w2 Hsup.
  bind_inv H as u3 w3 Hrm. bind_inv H as u4 w4 Hmk.
  bind_inv H as out w5 Hexp.
  destruct out as [src | dd]; [discriminate |]. cbv zeta in H.
  bind_inv H as u6 w6 Hwr. bind_inv H as u7 w7 Hcomp.
  bind_inv H as y' w8 Hrun. bind_inv H as u9 w9 Hclean.
  injection H as -> _.
  bind_inv Hrun as pred w7' Hout. bind_inv Hrun as v' w7'' Hint.
  injection Hrun as -> _.
  apply to_int_ok_inv in Hint as [Hint _].
  unfold predict.
  rewrite (bind_ok _ _ _ _ _ Hdeps), (bind_ok _ _ _ _ _ Hsup).
  rewrite (bind_ok _ _ _ _ _ Hrm), (bind_ok _ _ _ _ _ Hmk).
  rewrite (bind_ok _ _ _ _ _ Hexp). cbv zeta.
  rewrite (bind_ok _ _ _ _ _ Hwr), (bind_ok _ _ _ _ _ Hcomp).
  cbn [predict_rows]. unfold bind at 1. unfold bind at 1. unfold bind at 1.
  rewrite Hout. unfold bind at 1. unfold to_int. rewrite Hint. unfold ret at 1.
  unfold bind at 1. unfold store_long. rewrite Hbig. reflexivity.
Qed.

Lemma predict_label_beyond_long_witness :
  (predict big_label js_porter (Matrix [["1.0"]]) "Brain" "predict" "tmp" false w0).1
  = Raise (OverflowError "Python int too large to convert to C long").
Proof.
  apply (predict_label_beyond_long big_label js_porter ["1.0"] "Brain" "predict"
           "tmp" false w0 (2 ^ 63)%Z).
  - vm_compute. reflexivity.
  - vm_compute. reflexivity.
Defined.

(** ** The instances [__init__] builds *)

(** X12: an instance that [__init__] returns is built on a classifier whose
    class the package has; its language is the given one, stripped and
    lower-cased, and has a template directory; its method is the given one
    and is among the methods the class supports; its flag is unset.  The
    files are as before. *)
Theorem init_builds (mc : machine) (m : sk_model) (language method : string)
  (w w' : world) (self : porter) :
  __init__ mc m language method w = (Ok self, w') ->
  w' = w /\
  model self = m /\
  is_classifier m = true /\
  algorithm_type self = "classifier" /\
  algorithm_name self = type_name m /\
  import_class mc ("classifier." +:+ type_name m) (type_name m) = Some (template self) /\
  target_language self = PyStr.lower (PyStr.strip language) /\
  fs w !! template_dir_of mc "classifier" (type_name m) (target_language self)
  = Some Dir /\
  target_method self = method /\
  method ∈ SUPPORTED_METHODS (template self) /\
  tested_env_dependencies self = false.
Proof.
  unfold __init__, algorithm_type_of, algorithm_name_of.
  destruct (is_classifier m); [| discriminate].
  change ("classifier" +:+ "." +:+ type_name m) with ("classifier." +:+ type_name m).
  destruct (import_class mc _ (type_name m)) as [clazz |]; [| discriminate].
  unfold bind, isdir.
  destruct (bool_decide (fs w !! _ = Some Dir)) eqn:Hdir; [| discriminate].
  cbn [negb].
  destruct (bool_decide (method ∈ SUPPORTED_METHODS clazz)) eqn:Hmeth; [| discriminate].
  cbn [negb]. unfold ret. intros [= <- <-].
  apply bool_decide_eq_true_1 in Hdir, Hmeth. cbn. auto 12.
Qed.

Lemma init_builds_witness :
  w0 = w0 /\
  model js_porter = a_model "SVC" /\
  is_classifier (a_model "SVC") = true /\
  algorithm_type js_porter = "classifier" /\
  algorithm_name js_porter = type_name (a_model "SVC") /\
  import_class caching ("classifier." +:+ type_name (a_model "SVC"))
    (type_name (a_model "SVC")) = Some (template js_porter) /\
  target_language js_porter = PyStr.lower (PyStr.strip " JS ") /\
  fs w0 !! template_dir_of caching "classifier" (type_name (a_model "SVC"))
             (target_language js_porter)
  = Some Dir /\
  target_method js_porter = "predict" /\
  "predict" ∈ SUPPORTED_METHODS (template js_porter) /\
  tested_env_dependencies js_porter = false.
Proof.
  apply (init_builds caching (a_model "SVC") " JS " "predict" w0 w0 js_porter).
  vm_compute. reflexivity.
Defined.

(** X13: the order of the checks of [__init__].  A model that is no
    classifier is reported, by [KeyError], whatever the language and the
    method are; a classifier whose class the package lacks is reported
    whatever they are; a language without template directory is reported
    whatever the method is.  In each case nothing is changed. *)
Theorem init_error_order (mc : machine) (m : sk_model) (language method : string)
  (w : world) :
  (is_classifier m = false ->
   __init__ mc m language method w = (Raise (KeyError "algorithm_type"), w)) /\
  (is_classifier m = true ->
   import_class mc ("classifier." +:+ type_name m) (type_name m) = None ->
   __init__ mc m language method w
   = (Raise (AttributeError
        ("The given model '" +:+ type_name m +:+ "' isn't supported.")), w)) /\
  (forall clazz,
     is_classifier m = true ->
     import_class mc ("classifier." +:+ type_name m) (type_name m) = Some clazz ->
     fs w !! template_dir_of mc "classifier" (type_name m)
               (PyStr.lower (PyStr.strip language)) <> Some Dir ->
     __init__ mc m language method w
     = (Raise (AttributeError
          ("The given target programming language '"
           +:+ PyStr.lower (PyStr.strip language) +:+ "' isn't supported.")), w)).
Proof.
  unfold __init__, algorithm_type_of, algorithm_name_of.
  repeat split.
  - now intros ->.
  - intros -> Himp. cbv beta iota zeta.
    change ("classifier" +:+ "." +:+ type_name m) with ("classifier." +:+ type_name m).
    now rewrite Himp.
  - intros clazz -> Himp Hdir. cbv beta iota zeta.
    change ("classifier" +:+ "." +:+ type_name m) with ("classifier." +:+ type_name m).
    rewrite Himp. unfold bind, isdir.
    rewrite (bool_decide_eq_false_2 _ Hdir). reflexivity.
Qed.

Lemma init_error_order_witness :
  __init__ caching {| type_name := "KMeans"; is_classifier := false;
                      model_str := "KMeans()" |} "swift" "transform" w0
  = (Raise (KeyError "algorithm_type"), w0) /\
  __init__ caching (a_model "Lasso") "swift" "transform" w0
  = (Raise (AttributeError
       ("The given model '" +:+ type_name (a_model "Lasso") +:+ "' isn't supported.")),
     w0) /\
  __init__ caching (a_model "SVC") "Swift" "transform" w0
  = (Raise (AttributeError
       ("The given target programming language '"
        +:+ PyStr.lower (PyStr.strip "Swift") +:+ "' isn't supported.")), w0).
Proof.
  split; [| split].
  - apply (init_error_order caching
             {| type_name := "KMeans"; is_classifier := false; model_str := "KMeans()" |}
             "swift" "transform" w0).
    reflexivity.
  - apply (init_error_order caching (a_model "Lasso") "swift" "transform" w0);
      reflexivity.
  - apply (init_error_order caching (a_model "SVC") "Swift" "transform" w0)
      with (clazz := svc).
    + reflexivity.
    + reflexivity.
    + vm_compute. discriminate.
Defined.

(** ** The language given to [__init__] *)

Lemma is_space_lower_char (c : ascii) :
  PyStr.is_space (PyStr.lower_char c) = PyStr.is_space c.
Proof. destruct c as [[] [] [] [] [] [] [] []]; reflexivity. Qed.

Lemma lstrip_lower (s : string) :
  PyStr.lstrip (PyStr.lower s) = PyStr.lower (PyStr.lstrip s).
Proof.
  induction s as [| c s IH]; [reflexivity |].
  cbn [PyStr.lower PyStr.lstrip]. rewrite is_space_lower_char.
  destruct (PyStr.is_space c); [exact IH | reflexivity].
Qed.

Lemma rstrip_lower (s : string) :
  PyStr.rstrip (PyStr.lower s) = PyStr.lower (PyStr.rstrip s).
Proof.
  induction s as [| c s IH]; [reflexivity |].
  cbn [PyStr.lower PyStr.rstrip]. rewrite IH, is_space_lower_char.
  destruct (PyStr.rstrip s) as [| c' r']; cbn [PyStr.lower].
  - destruct (PyStr.is_space c); reflexivity.
  - reflexivity.
Qed.

Lemma strip_lower (s : string) :
  PyStr.strip (PyStr.lower s) = PyStr.lower (PyStr.strip s).
Proof. unfold PyStr.strip. now rewrite lstrip_lower, rstrip_lower. Qed.

Lemma rstrip_idemp (s : string) : PyStr.rstrip (PyStr.rstrip s) = PyStr.rstrip s.
Proof.
  induction s as [| c s IH]; [reflexivity |].
  cbn [PyStr.rstrip]. destruct (PyStr.rstrip s) as [| c' r'] eqn:E.
  - destruct (PyStr.is_space c) eqn:Hc; [reflexivity |].
    cbn [PyStr.rstrip]. now rewrite Hc.
  - cbn [PyStr.rstrip]. cbn [PyStr.rstrip] in IH. now rewrite IH.
Qed.

(** What [lstrip] returns does not start with white space, and [rstrip]
    leaves the first character of such a string where it is. *)
Lemma lstrip_head (s : string) :
  match PyStr.lstrip s with
  | EmptyString => True
  | String c _ => PyStr.is_space c = false
  end.
Proof.
  induction s as [| c s IH]; [exact I |].
  cbn [PyStr.lstrip]. destruct (PyStr.is_space c) eqn:Hc; [exact IH | exact Hc].
Qed.

Lemma lstrip_rstrip_lstrip (s : string) :
  PyStr.lstrip (PyStr.rstrip (PyStr.lstrip s)) = PyStr.rstrip (PyStr.lstrip s).
Proof.
  pose proof (lstrip_head s) as Hhead.
  destruct (PyStr.lstrip s) as [| c r]; [reflexivity |].
  cbn [PyStr.rstrip]. destruct (PyStr.rstrip r) as [| c' r'].
  - rewrite Hhead. cbn [PyStr.lstrip]. now rewrite Hhead.
  - cbn [PyStr.lstrip]. now rewrite Hhead.
Qed.

Lemma strip_idemp (s : string) : PyStr.strip (PyStr.strip s) = PyStr.strip s.
Proof. unfold PyStr.strip. now rewrite lstrip_rstrip_lstrip, rstrip_idemp. Qed.

(** X14: [__init__] takes the language up to case and to white space around
    it: given the language as it stores it, stripped and lower-cased, it does
    what it does on the language as given. *)
Theorem init_language_normalised (mc : machine) (m : sk_model)
  (language method : string) (w : world) :
  __init__ mc m (PyStr.lower (PyStr.strip language)) method w
  = __init__ mc m language method w.
Proof.
  unfold __init__.
  now rewrite strip_lower, strip_idemp, lower_idemp.
Qed.

(** ** [port] and [export] *)

(** X15: [port] with and without details.  Neither call changes a file or
    starts a process.  When the template raises, both raise the same; else
    the call without details returns the text of the template, and the call
    with details returns this text with the names given, the file name of
    [get_filename] and the commands of [get_commands] for that file name. *)
Theorem port_details_agree (self : porter) (class_name method_name : string)
  (w : world) :
  (port self class_name method_name false w).2 = w /\
  (port self class_name method_name true w).2 = w /\
  match template_export (template self) class_name method_name with
  | Raise e =>
      (port self class_name method_name false w).1 = Raise e /\
      (port self class_name method_name true w).1 = Raise e
  | Ok src =>
      (port self class_name method_name false w).1 = Ok (Source src) /\
      exists d,
        (port self class_name method_name true w).1 = Ok (Details d) /\
        d_model d = src /\
        d_class_name d = class_name /\
        d_method_name d = method_name /\
        d_filename d = get_filename class_name (target_language self) /\
        (d_compilation d, d_execution d)
        = get_commands (d_filename d) class_name (target_language self) /\
        d_algorithm_type d = algorithm_type self /\
        d_algorithm_name d = algorithm_name self
  end.
Proof.
  unfold port, export, bind, lift.
  destruct (template_export (template self) class_name method_name) as [src | e];
    cbn [negb fst snd].
  - destruct (get_commands _ class_name (target_language self)) as [comp exec] eqn:Hc.
    cbn [ret fst snd]. repeat split.
    eexists. split; [reflexivity |].
    cbn [d_model d_filename d_class_name d_method_name d_compilation d_execution
         d_algorithm_type d_algorithm_name].
    rewrite Hc. auto 10.
  - auto.
Qed.

(** ** The command lines as they are run *)

Lemma is_space_upper_char (c : ascii) :
  PyStr.is_space (PyStr.upper_char c) = PyStr.is_space c.
Proof. destruct c as [[] [] [] [] [] [] [] []]; reflexivity. Qed.

Lemma no_space_app (s r : string) :
  no_space (s +:+ r) = no_space s && no_space r.
Proof.
  induction s as [| c s IH]; [reflexivity |].
  change (String c s +:+ r) with (String c (s +:+ r)).
  unfold no_space in *. cbn [list_ascii_of_string forallb].
  now rewrite IH, andb_assoc.
Qed.

Lemma no_space_lower (s : string) : no_space (PyStr.lower s) = no_space s.
Proof.
  induction s as [| c s IH]; [reflexivity |].
  unfold no_space in *. cbn [PyStr.lower list_ascii_of_string forallb].
  now rewrite IH, is_space_lower_char.
Qed.

Lemma no_space_capitalize_lower (s : string) :
  no_space (PyStr.capitalize (PyStr.lower s)) = no_space s.
Proof.
  destruct s as [| c s]; [reflexivity |].
  pose proof (no_space_lower s) as Hs. unfold no_space in *.
  cbn [PyStr.lower PyStr.capitalize list_ascii_of_string forallb].
  now rewrite lower_idemp, Hs, is_space_upper_char, is_space_lower_char.
Qed.

(** Reading a word: its characters pile up in the run being read. *)
Lemma split_aux_word (s r : string) (cur : list ascii) :
  no_space s = true ->
  PyStr.split_aux (s +:+ r) cur
  = PyStr.split_aux r (rev (list_ascii_of_string s) ++ cur).
Proof.
  revert cur. induction s as [| c s IH]; intros cur Hs; [reflexivity |].
  change (String c s +:+ r) with (String c (s +:+ r)).
  unfold no_space in Hs. cbn [list_ascii_of_string forallb] in Hs.
  apply andb_true_iff in Hs as [Hc Hs]. apply negb_true_iff in Hc.
  cbn [PyStr.split_aux]. rewrite Hc, IH by exact Hs.
  cbn [list_ascii_of_string rev]. now rewrite <- app_assoc.
Qed.

Lemma rev_word (s : string) :
  s <> "" ->
  match rev (list_ascii_of_string s) ++ [] with
  | [] => []
  | _ :: _ => [string_of_list_ascii (rev (rev (list_ascii_of_string s) ++ []))]
  end = [s].
Proof.
  intros Hne. rewrite app_nil_r.
  destruct (rev (list_ascii_of_string s)) as [| c l] eqn:E.
  - destruct s as [| c s]; [congruence |].
    cbn [list_ascii_of_string rev] in E. now destruct (rev (list_ascii_of_string s)).
  - now rewrite <- E, rev_involutive, string_of_list_ascii_of_string.
Qed.

(** A word followed by a blank, and a word at the end. *)
Lemma split_word_blank (s r : string) :
  no_space s = true -> s <> "" ->
  PyStr.split_aux (s +:+ String " " r) [] = s :: PyStr.split_aux r [].
Proof.
  intros Hs Hne. rewrite split_aux_word by exact Hs.
  cbn [PyStr.split_aux]. change (PyStr.is_space " ") with true. cbv iota.
  now rewrite rev_word.
Qed.

Lemma split_word_end (s : string) :
  no_space s = true -> s <> "" -> PyStr.split_aux s [] = [s].
Proof.
  intros Hs Hne. rewrite <- (append_nil_r s) at 1.
  rewrite split_aux_word by exact Hs. cbn [PyStr.split_aux]. now apply rev_word.
Qed.

Lemma append_not_empty (s r : string) : r <> "" -> s +:+ r <> "".
Proof. destruct s; [now intros | discriminate]. Qed.

Lemma lower_not_empty (s : string) : s <> "" -> PyStr.lower s <> "".
Proof. destruct s; [congruence | discriminate]. Qed.

Lemma capitalize_lower_not_empty (s : string) :
  s <> "" -> PyStr.capitalize (PyStr.lower s) <> "".
Proof. destruct s; [congruence | discriminate]. Qed.

Lemma path_join_dot_word (s : string) :
  no_space s = true -> s <> "" ->
  no_space (PyStr.path_join "." s) = true /\ PyStr.path_join "." s <> "".
Proof.
  intros Hs Hne. unfold PyStr.path_join.
  destruct (PyStr.starts_with_sep s); [now split |].
  cbn [String.eqb Ascii.eqb Bool.eqb PyStr.ends_with_sep orb].
  change ("." +:+ "/" +:+ s) with ("./" +:+ s).
  split; [now rewrite no_space_app | discriminate].
Qed.

Lemma split_word_cons (s r : string) (l : list string) :
  no_space s = true -> s <> "" ->
  PyStr.split_aux r [] = l ->
  PyStr.split_aux (s +:+ String " " r) [] = s :: l.
Proof. intros Hs Hne <-. now apply split_word_blank. Qed.

(** Lookup at a constant key, the last entry of a dictionary included. *)
Ltac dict_lookup_all :=
  repeat first [ rewrite lookup_insert_eq
               | rewrite lookup_singleton_eq
               | rewrite lookup_insert_ne by discriminate
               | rewrite lookup_singleton_ne by discriminate
               | rewrite lookup_empty ].

Lemma starts_with_sep_lower (s : string) :
  PyStr.starts_with_sep (PyStr.lower s) = PyStr.starts_with_sep s.
Proof.
  destruct s as [| c s]; [reflexivity |].
  destruct c as [[] [] [] [] [] [] [] []]; reflexivity.
Qed.

(** [os.path.join('.', name)]: a name that starts with a slash stays as it
    is. *)
Lemma path_join_dot (s : string) :
  PyStr.path_join "." (PyStr.lower s)
  = if PyStr.starts_with_sep s then PyStr.lower s else "./" +:+ PyStr.lower s.
Proof.
  unfold PyStr.path_join. rewrite starts_with_sep_lower.
  now destruct (PyStr.starts_with_sep s).
Qed.

(** The conditions on a word: it has no white space and is not empty. *)
Ltac word_ok :=
  first [ assumption | reflexivity | discriminate
        | rewrite no_space_app; apply andb_true_intro; split;
          first [assumption | reflexivity]
        | apply append_not_empty; discriminate ].

(** X16: the command lines [predict] starts, for a class name that is one
    word.  For C the compiler is given the source file and the lower-cased
    class name, and the program is run as [./] followed by this name, or as
    this name alone when the class name starts with a slash; for Java the
    compiled file and the class run go by the same capitalised name;
    JavaScript, PHP and Ruby have their interpreter run the file
    [get_filename] names.  For Go, which has no command, the line to run is
    the one word [None]. *)
Theorem command_lines_of_word (class_name : string) :
  no_space class_name = true ->
  class_name <> "" ->
  let name := PyStr.lower class_name in
  let Name := PyStr.capitalize (PyStr.lower class_name) in
  command_lines class_name "c"
  = (Some ["gcc"; name +:+ ".c"; "-lm"; "-o"; name],
     [if PyStr.starts_with_sep class_name then name else "./" +:+ name]) /\
  command_lines class_name "java"
  = (Some ["javac"; Name +:+ ".java"], ["java"; "-classpath"; "."; Name]) /\
  command_lines class_name "js" = (None, ["node"; name +:+ ".js"]) /\
  command_lines class_name "php" = (None, ["php"; "-f"; name +:+ ".php"]) /\
  command_lines class_name "ruby" = (None, ["ruby"; name +:+ ".rb"]) /\
  command_lines class_name "go" = (None, ["None"]).
Proof.
  intros Hword Hne name Name.
  assert (Hname : no_space name = true) by (unfold name; now rewrite no_space_lower).
  assert (HName : no_space Name = true)
    by (unfold Name; now rewrite no_space_capitalize_lower).
  assert (Hname' : name <> "") by now apply lower_not_empty.
  assert (HName' : Name <> "") by now apply capitalize_lower_not_empty.
  destruct (path_join_dot_word name Hname Hname') as [Hrun Hrun'].
  pose proof (path_join_dot class_name) as Hdot. fold name in Hdot.
  rewrite <- Hdot.
  unfold command_lines.
  repeat split; rewrite get_filename_eq; unfold suffix, get_commands, comp_vars, exec_vars;
    dict_lookup_all; cbn [String.eqb Ascii.eqb Bool.eqb default fst snd fmap option_fmap
                      option_map PyStr.str_opt PyStr.format];
    rewrite ?append_nil_r; fold name; fold Name; unfold PyStr.split.
  - f_equal; [f_equal |].
    + apply (split_word_cons "gcc"); [word_ok .. |].
      apply (split_word_cons (name +:+ ".c")); [word_ok .. |].
      apply (split_word_cons "-lm"); [word_ok .. |].
      apply (split_word_cons "-o"); [word_ok .. |].
      apply split_word_end; word_ok.
    + apply (split_word_end (PyStr.path_join "." name)); word_ok.
  - f_equal; [f_equal |].
    + apply (split_word_cons "javac"); [word_ok .. |].
      apply (split_word_end (Name +:+ ".java")); word_ok.
    + apply (split_word_cons "java"); [word_ok .. |].
      apply (split_word_cons "-classpath"); [word_ok .. |].
      apply (split_word_cons "."); [word_ok .. |].
      apply split_word_end; word_ok.
  - f_equal.
    apply (split_word_cons "node"); [word_ok .. |].
    apply (split_word_end (name +:+ ".js")); word_ok.
  - f_equal.
    apply (split_word_cons "php"); [word_ok .. |].
    apply (split_word_cons "-f"); [word_ok .. |].
    apply (split_word_end (name +:+ ".php")); word_ok.
  - f_equal.
    apply (split_word_cons "ruby"); [word_ok .. |].
    apply (split_word_end (name +:+ ".rb")); word_ok.
Qed.

Lemma command_lines_of_word_witness :
  let name := PyStr.lower "Brain" in
  let Name := PyStr.capitalize (PyStr.lower "Brain") in
  command_lines "Brain" "c"
  = (Some ["gcc"; name +:+ ".c"; "-lm"; "-o"; name],
     [if PyStr.starts_with_sep "Brain" then name else "./" +:+ name]) /\
  command_lines "Brain" "java"
  = (Some ["javac"; Name +:+ ".java"], ["java"; "-classpath"; "."; Name]) /\
  command_lines "Brain" "js" = (None, ["node"; name +:+ ".js"]) /\
  command_lines "Brain" "php" = (None, ["php"; "-f"; name +:+ ".php"]) /\
  command_lines "Brain" "ruby" = (None, ["ruby"; name +:+ ".rb"]) /\
  command_lines "Brain" "go" = (None, ["None"]).
Proof.
  apply (command_lines_of_word "Brain").
  - reflexivity.
  - discriminate.
Defined.

(** ** Where the source file is written *)
















(** ** What a call of [predict] may start and write *)

Section Allowed.

Variable allowed : event -> bool.

Lemma log_adds_ret {A} (a : A) : log_adds allowed (ret a).
Proof. intros w. exists []. cbn. now rewrite app_nil_r. Qed.

Lemma log_adds_raise {A} (e : exn) : log_adds allowed (@raise A e).
Proof. intros w. exists []. cbn. now rewrite app_nil_r. Qed.

Lemma log_adds_lift {A} (r : result A) : log_adds allowed (lift r).
Proof. intros w. exists []. cbn. now rewrite app_nil_r. Qed.

Lemma log_adds_bind {A B} (m : M A) (k : A -> M B) :
  log_adds allowed m -> (forall a, log_adds allowed (k a)) ->
  log_adds allowed (bind m k).
Proof.
  intros Hm Hk w. unfold bind. destruct (Hm w) as (l & Hl & Hall).
  destruct (m w) as [[a | e] w1]; cbn [snd] in Hl.
  - destruct (Hk a w1) as (l' & Hl' & Hall'). exists (l ++ l'). split.
    + now rewrite Hl', Hl, <- app_assoc.
    + rewrite forallb_app. now rewrite Hall, Hall'.
  - now exists l.
Qed.

(** A computation that adds one event at most, an allowed one. *)
Lemma log_adds_one {A} (m : M A) (e : event) :
  allowed e = true ->
  (forall w, log (m w).2 = log w ++ [e] \/ log (m w).2 = log w) ->
  log_adds allowed m.
Proof.
  intros He Hm w. destruct (Hm w) as [H | H]; rewrite H.
  - exists [e]. split; [reflexivity |]. cbn. now rewrite He.
  - exists []. split; [now rewrite app_nil_r | reflexivity].
Qed.

Lemma log_adds_call_here (mc : machine) (argv : list string) :
  allowed (Spawn argv None) = true -> log_adds allowed (call_here mc argv).
Proof.
  intros He. apply (log_adds_one _ _ He). intros w. left. unfold call_here.
  now destruct (has_program mc _).
Qed.

Lemma log_adds_call_rm_rf (mc : machine) (d : string) :
  allowed (Spawn ["rm"; "-rf"; d] None) = true -> log_adds allowed (call_rm_rf mc d).
Proof. apply log_adds_call_here. Qed.

Lemma log_adds_call_mkdir (mc : machine) (d : string) :
  allowed (Spawn ["mkdir"; d] None) = true -> log_adds allowed (call_mkdir mc d).
Proof. apply log_adds_call_here. Qed.

Lemma log_adds_open_write (path content : string) :
  allowed (WriteFile path) = true -> log_adds allowed (open_write path content).
Proof.
  intros He. apply (log_adds_one _ _ He). intros w. unfold open_write.
  destruct (write_file path content (fs w)); [now left | now right].
Qed.

Lemma log_adds_call (mc : machine) (argv : list string) (cwd : string) :
  allowed (Spawn argv (Some cwd)) = true -> log_adds allowed (call mc argv cwd).
Proof.
  intros He. apply (log_adds_one _ _ He). intros w. unfold call.
  destruct (run_call mc argv cwd (fs w)); now left.
Qed.

Lemma log_adds_check_output (mc : machine) (argv : list string) (cwd : string) :
  allowed (Spawn argv (Some cwd)) = true -> log_adds allowed (check_output mc argv cwd).
Proof.
  intros He. apply (log_adds_one _ _ He). intros w. left.
  now rewrite check_output_log.
Qed.

Lemma log_adds_to_int (pred : string) : log_adds allowed (to_int pred).
Proof.
  unfold to_int. destruct (PyStr.int pred);
    [apply log_adds_ret | apply log_adds_raise].
Qed.

Lemma log_adds_store_long (v : Z) : log_adds allowed (store_long v).
Proof.
  unfold store_long. destruct (fits_long v);
    [apply log_adds_ret | apply log_adds_raise].
Qed.

Lemma log_adds_test_dependencies (mc : machine) (language : string) :
  (forall cmd, allowed (Shell cmd) = true) ->
  log_adds allowed (test_dependencies mc language).
Proof.
  intros He w. destruct (test_dependencies_shell mc language) as (r & cmds & H).
  rewrite H. exists (map Shell cmds). split; [reflexivity |].
  apply forallb_forall. intros e Hin. apply in_map_iff in Hin as (cmd & <- & _).
  apply He.
Qed.

Lemma log_adds_predict_rows (mc : machine) (exec_cmd : list string) (tnp_dir : string)
  (rows : list (list string)) :
  (forall argv, allowed (Spawn argv (Some tnp_dir)) = true) ->
  log_adds allowed (predict_rows mc exec_cmd tnp_dir rows).
Proof.
  intros He. induction rows as [| x rest IH]; cbn [predict_rows].
  - apply log_adds_ret.
  - apply log_adds_bind; [now apply log_adds_check_output | intros pred].
    apply log_adds_bind; [apply log_adds_to_int | intros v].
    apply log_adds_bind; [apply log_adds_store_long | intros _].
    apply log_adds_bind; [exact IH | intros ys]. apply log_adds_ret.
Qed.

Lemma log_adds_export (self : porter) (class_name method_name : string)
  (details : bool) : log_adds allowed (export self class_name method_name details).
Proof.
  unfold export. apply log_adds_bind; [apply log_adds_lift | intros src].
  destruct (negb details); [apply log_adds_ret |].
  destruct (get_commands _ _ _). apply log_adds_ret.
Qed.

End Allowed.

(** X18: what a call of [predict] does, whether it returns or raises.  All
    it starts and writes is: the probes, and none when it is told the
    dependencies were tested; [rm -rf] and [mkdir] on the workspace path;
    processes whose working directory is the workspace; and one file, the
    one [get_filename] names joined to the workspace path. *)
Theorem predict_events (mc : machine) (self : porter) (X : ndarray)
  (class_name method_name tnp_dir : string) (keep_tmp_dir : bool) :
  log_adds
    (predict_event (negb (tested_env_dependencies self)) tnp_dir
       (PyStr.path_join tnp_dir (get_filename class_name (target_language self))))
    (predict mc self X class_name method_name tnp_dir keep_tmp_dir).
Proof.
  set (target := PyStr.path_join tnp_dir (get_filename class_name (target_language self))).
  set (allowed := predict_event (negb (tested_env_dependencies self)) tnp_dir target).
  assert (Hrm : allowed (Spawn ["rm"; "-rf"; tnp_dir] None) = true).
  { unfold allowed. cbn [predict_event]. now rewrite bool_decide_eq_true_2. }
  assert (Hmk : allowed (Spawn ["mkdir"; tnp_dir] None) = true).
  { unfold allowed. cbn [predict_event].
    rewrite (bool_decide_eq_true_2 (["mkdir"; tnp_dir] = ["mkdir"; tnp_dir]))
      by reflexivity.
    apply orb_true_r. }
  assert (Hin : forall argv, allowed (Spawn argv (Some tnp_dir)) = true).
  { intros argv. unfold allowed. cbn [predict_event]. apply String.eqb_refl. }
  assert (Hwr : allowed (WriteFile target) = true).
  { unfold allowed. cbn [predict_event]. apply String.eqb_refl. }
  unfold predict.
  apply log_adds_bind; [| intros _].
  { destruct (tested_env_dependencies self) eqn:Hflag; cbn [negb].
    - apply log_adds_ret.
    - apply log_adds_test_dependencies. intros cmd. unfold allowed.
      cbn [predict_event]. first [reflexivity | now rewrite Hflag]. }
  apply log_adds_bind; [| intros _].
  { destruct (negb (bool_decide _)); [apply log_adds_raise | apply log_adds_ret]. }
  apply log_adds_bind; [now apply log_adds_call_rm_rf | intros _].
  apply log_adds_bind; [now apply log_adds_call_mkdir | intros _].
  apply log_adds_bind; [apply log_adds_export | intros out].
  destruct out as [src | dd]; [apply log_adds_raise |]. cbv zeta.
  apply log_adds_bind; [now apply log_adds_open_write | intros _].
  apply log_adds_bind; [| intros _].
  { destruct (d_compilation dd); [now apply log_adds_call | apply log_adds_ret]. }
  apply log_adds_bind; [| intros y].
  { destruct X as [x | rows].
    - apply log_adds_bind; [now apply log_adds_check_output | intros pred].
      apply log_adds_bind; [apply log_adds_to_int | intros v]. apply log_adds_ret.
    - apply log_adds_bind; [now apply log_adds_predict_rows | intros ys].
      apply log_adds_ret. }
  apply log_adds_bind; [| intros _; apply log_adds_ret].
  destruct (negb keep_tmp_dir); [now apply log_adds_call_rm_rf | apply log_adds_ret].
Qed.

(** ** When [predict] returns *)

(** X20: what makes [predict] return on a vector, for a language without
    compilation command.  When the probes pass or are skipped, the template
    supports [predict] and gives a source, [rm] and [mkdir] can be started,
    this source can be written to the files as [rm -rf] and [mkdir] of the
    workspace path leave them, and the ported program, run there on the
    stripped features, exits with status 0 and prints an integer, then
    [predict] returns this integer. *)
Theorem predict_vector_returns (mc : machine) (self : porter) (x : list string)
  (class_name method_name tnp_dir : string) (keep_tmp_dir : bool) (w : world)
  (src pred : string) (files : gmap string node) (v : Z) :
  let filename := get_filename class_name (target_language self) in
  let cmds := get_commands filename class_name (target_language self) in
  tested_env_dependencies self = true \/
  (test_dependencies mc (target_language self) w).1 = Ok tt ->
  "predict" ∈ SUPPORTED_METHODS (template self) ->
  template_export (template self) class_name method_name = Ok src ->
  cmds.1 = None ->
  has_program mc "rm" = true ->
  has_program mc "mkdir" = true ->
  write_file (PyStr.path_join tnp_dir filename) src
    (run_util mc ["mkdir"; tnp_dir] (run_util mc ["rm"; "-rf"; tnp_dir] (fs w)))
  = Some files ->
  run_check_output mc (PyStr.split (PyStr.str_opt cmds.2) ++ map PyStr.strip x)
    tnp_dir files = Exited 0 pred ->
  PyStr.int pred = Some v ->
  (predict mc self (Vector x) class_name method_name tnp_dir keep_tmp_dir w).1
  = Ok (Label v).
Proof.
  intros filename cmds Hdeps Hsup Hsrc Hnone Hrm Hmk Hwrite Hrun Hint.
  destruct (predict_checks_pass mc self w Hdeps) as [probes Hshell].
  unfold predict. rewrite (bind_ok _ _ _ _ _ (Hshell w)).
  rewrite (bool_decide_eq_true_2 _ Hsup). cbn [negb]. rewrite bind_ret.
  rewrite (bind_ok _ _ _ _ _ (call_rm_rf_ok mc tnp_dir _ Hrm)).
  rewrite (bind_ok _ _ _ _ _ (call_mkdir_ok mc tnp_dir _ Hmk)). cbn [fs log].
  unfold bind at 1. unfold export at 1. unfold bind at 1. unfold lift at 1.
  rewrite Hsrc. cbn [negb].
  fold filename. fold cmds. destruct cmds as [comp exec] eqn:Hcmds.
  cbn [fst snd] in Hnone, Hrun. subst comp.
  unfold ret at 1. cbv zeta. cbn [d_model d_compilation d_execution].
  unfold bind at 1. unfold open_write at 1. cbn [fs log]. rewrite Hwrite.
  rewrite bind_ret.
  unfold bind at 1. unfold bind at 1.
  unfold check_output at 1. cbn [fs log]. rewrite Hrun.
  unfold bind at 1. unfold to_int. rewrite Hint. unfold ret at 1 2.
  destruct keep_tmp_dir; cbn [negb]; [reflexivity |].
  now rewrite (bind_ok _ _ _ _ _ (call_rm_rf_ok mc tnp_dir _ Hrm)).
Qed.

Lemma predict_vector_returns_witness :
  (predict caching js_porter (Vector ["0.0"; "7"]) "Brain" "predict" "tmp" true w0).1
  = Ok (Label 0).
Proof.
  apply (predict_vector_returns caching js_porter ["0.0"; "7"] "Brain" "predict"
           "tmp" true w0 "// Brain.predict" ("0" +:+ newline)
           (<["tmp/brain.js" := File "// Brain.predict"]>
              (make_dir "tmp" (remove_tree "tmp" (fs w0))))).
  - right. vm_compute. reflexivity.
  - apply list_elem_of_In. cbn. left. reflexivity.
  - reflexivity.
  - vm_compute. reflexivity.
  - reflexivity.
  - reflexivity.
  - vm_compute. reflexivity.
  - vm_compute. reflexivity.
  - reflexivity.
Defined.
